(** * Pulse360: the resilient caching layer for AI-service calls

    A shallow embedding of
      - [app/core/flux_ai/fallback.py]        (fallback strategy table),
      - [app/core/flux_ai/circuit_breaker.py] (circuit breaker),
      - [app/core/flux_ai/enhanced_cache.py]  (two-tier cache with retry),
      - [app/core/flux_ai/cache.py]           (the older two-tier cache),
      - [app/models/cache.py]                 (the [ai_cache] table),
    followed by the properties of the specification, each one proved or
    refuted on the embedding.

    Conventions of the model.
      - Python values are the JSON-like values of [value]; floats are left
        out.
      - Time (time.time(), datetime.utcnow(), the Redis clock) is one
        integer clock, in the unit of [recovery_timeout] and [ttl].
      - Execution is sequential: nothing interleaves with a call while it
        awaits.  Only subclasses of Exception are modelled as errors.
      - A wrapped coroutine function acts on the environment [Env] (clock,
        availability of the two stores); it has no handle on the cache
        contents nor on the breaker. *)

From Stdlib Require Import ZArith String List Bool Lia.
From Stdlib Require OrderedTypeEx.
From stdpp Require Import gmap strings list fin_maps pretty.

Set Warnings "-register-all,-notation-for-abbreviation".

Local Open Scope string_scope.
Local Open Scope Z_scope.

(** ** Python values *)

Inductive value : Type :=
| VNone
| VBool (b : bool)
| VInt (n : Z)
| VStr (s : string)
| VList (items : list value)
| VDict (entries : list (string * value)).

(** Keyword arguments and dict literals keep insertion order. *)
Abbreviation kwargs := (list (string * value)).

Definition dict_get (k : string) (d : list (string * value)) : option value :=
  snd <$> List.find (fun p => String.eqb (fst p) k) d.

(** [d[k] = v]: an entry that exists keeps its place. *)
Fixpoint dict_set (k : string) (v : value) (d : list (string * value))
    : list (string * value) :=
  match d with
  | [] => [(k, v)]
  | p :: rest =>
      if String.eqb (fst p) k then (k, v) :: rest else p :: dict_set k v rest
  end.

Definition has_key (k : string) (d : list (string * value)) : bool :=
  existsb (fun p => String.eqb (fst p) k) d.

(** Python truthiness, as used by [if db_result:] and [ttl or default]. *)
Definition truthy (v : value) : bool :=
  match v with
  | VNone => false
  | VBool b => b
  | VInt n => negb (n =? 0)
  | VStr s => negb (String.eqb s EmptyString)
  | VList l => match l with [] => false | _ => true end
  | VDict d => match d with [] => false | _ => true end
  end.

(** Does a boolean occur anywhere in [v]? *)
Fixpoint contains_bool (v : value) : bool :=
  match v with
  | VBool _ => true
  | VList l => existsb contains_bool l
  | VDict d => existsb (fun p => contains_bool (snd p)) d
  | _ => false
  end.

(** ** Exceptions *)

Inductive exn_class : Type :=
| HTTPStatusError (status_code : Z)  (* httpx, carries a response *)
| TimeoutException                   (* httpx, a subclass of HTTPError *)
| HTTPError                          (* any other httpx.HTTPError *)
| RedisConnectionError
| RedisResponseError
| OperationalError                   (* the database cannot be reached *)
| IntegrityError                     (* a UNIQUE constraint is violated *)
| TypeError
| JSONDecodeError
| OtherException.

Record exn : Type := Exn { exn_kind : exn_class; exn_str : string }.

Inductive outcome (A : Type) : Type :=
| Returned (a : A)
| Raised (e : exn).
Arguments Returned {A} a.
Arguments Raised {A} e.

(** ** The world a call runs in *)

Record Env : Type := mkEnv {
  time_now : Z;       (* the reading of the clock *)
  redis_up : bool;    (* false: every Redis command raises *)
  db_up : bool        (* false: execute and commit raise *)
}.

(** A row of the table [ai_cache] (app/models/cache.py). *)
Record AICache : Type := mkAICache {
  request_hash : string;
  response_data : value;
  expires_at : Z
}.

Inductive log_level : Type := DEBUG | INFO | WARNING | ERROR.

Record World : Type := mkWorld {
  env : Env;
  redis : gmap string (string * Z);  (* key -> payload, time of expiry *)
  ai_cache : list AICache;
  calls : list string;               (* names of the functions awaited *)
  logged : list (log_level * string)
}.

Definition set_env (e : Env) (w : World) : World :=
  mkWorld e (redis w) (ai_cache w) (calls w) (logged w).

Definition set_redis (r : gmap string (string * Z)) (w : World) : World :=
  mkWorld (env w) r (ai_cache w) (calls w) (logged w).

Definition set_ai_cache (t : list AICache) (w : World) : World :=
  mkWorld (env w) (redis w) t (calls w) (logged w).

Definition log (lvl : log_level) (msg : string) (w : World) : World :=
  mkWorld (env w) (redis w) (ai_cache w) (calls w) (logged w ++ [(lvl, msg)]).

(** An async callable: its [__name__] and what awaiting it does. *)
Record Callable : Type := mkCallable {
  __name__ : string;
  body : list value -> kwargs -> Env -> outcome value * Env
}.

(** Awaiting [func] on its positional and keyword arguments. *)
Definition invoke (func : Callable) (args : list value) (kw : kwargs)
    (w : World) : outcome value * World :=
  let '(r, e') := body func args kw (env w) in
  (r, mkWorld e' (redis w) (ai_cache w) (calls w ++ [__name__ func]) (logged w)).

(** ** fallback.py *)

Module Fallback.

(** Binding of a signature with one leading parameter [p] followed by
    var-args and var-kwargs: [p] is given exactly once. *)
Definition binds_leading (param : string) (args : list value) (kw : kwargs) : bool :=
  match args with
  | [] => has_key param kw
  | _ :: _ => negb (has_key param kw)
  end.

Fixpoint index_of (k : string) (params : list string) : option nat :=
  match params with
  | [] => None
  | p :: ps => if String.eqb p k then Some O else S <$> index_of k ps
  end.

(** Binding of a signature without var-args: [params] are the parameter
    names, the first [required] of them have no default. *)
Definition binds_fixed (params : list string) (required : nat)
    (args : list value) (kw : kwargs) : bool :=
  let n := length args in
  (n <=? length params)%nat
  && forallb (fun p => match index_of (fst p) params with
                       | Some i => (n <=? i)%nat
                       | None => false
                       end) kw
  && forallb (fun p => match index_of p params with
                       | Some i => (i <? n)%nat || has_key p kw
                       | None => false
                       end) (take required params).

Definition type_error (fname : string) : exn :=
  Exn TypeError (fname +:+ "() got unexpected or missing arguments").

Definition _fallback_upload_file (args : list value) (kw : kwargs) : outcome value :=
  if binds_fixed ["file"; "filename"; "tags"] 2 args kw then
    Returned (VDict [
      ("success", VBool false);
      ("message", VStr "Unable to upload file to AI service at this time. The file has been stored locally and will be processed when the service is available.");
      ("data", VList [])])
  else Raised (type_error "_fallback_upload_file").

Definition _fallback_list_files (args : list value) (kw : kwargs) : outcome value :=
  Returned (VDict [
    ("success", VBool false);
    ("message", VStr "Unable to fetch files from AI service at this time.");
    ("data", VList []);
    ("count", VInt 0)]).

Definition _fallback_get_file (args : list value) (kw : kwargs) : outcome value :=
  if binds_leading "file_id" args kw then
    Returned (VDict [
      ("success", VBool false);
      ("message", VStr "Unable to fetch file details from AI service at this time.");
      ("data", VNone)])
  else Raised (type_error "_fallback_get_file").

Definition _fallback_delete_file (args : list value) (kw : kwargs) : outcome value :=
  if binds_leading "file_id" args kw then
    Returned (VDict [
      ("success", VBool false);
      ("message", VStr "Unable to delete file from AI service at this time. The operation will be retried later.")])
  else Raised (type_error "_fallback_delete_file").

Definition _fallback_chat_completion (args : list value) (kw : kwargs) : outcome value :=
  if binds_leading "messages" args kw then
    Returned (VDict [
      ("choices", VList [
         VDict [
           ("finish_reason", VStr "stop");
           ("message", VDict [
              ("role", VStr "assistant");
              ("content", VStr "I'm sorry, but the AI service is currently unavailable. Your request has been saved and will be processed when the service is back online.")])]]);
      ("created", VInt 0);
      ("id", VStr "fallback_response");
      ("model", VStr "fallback");
      ("usage", VList [
         VDict [
           ("completion_tokens", VInt 0);
           ("prompt_tokens", VInt 0);
           ("total_tokens", VInt 0)]])])
  else Raised (type_error "_fallback_chat_completion").

Definition get_fallback_response (function_name : string)
    (args : list value) (kw : kwargs) (w : World) : outcome value * World :=
  let w1 := log WARNING ("Using fallback for " +:+ function_name) w in
  if String.eqb function_name "upload_file" then
    (_fallback_upload_file args kw, w1)
  else if String.eqb function_name "list_files" then
    (_fallback_list_files args kw, w1)
  else if String.eqb function_name "get_file" then
    (_fallback_get_file args kw, w1)
  else if String.eqb function_name "delete_file" then
    (_fallback_delete_file args kw, w1)
  else if String.eqb function_name "chat_completion" then
    (_fallback_chat_completion args kw, w1)
  else
    (Returned (VDict [
       ("success", VBool false);
       ("message", VStr "Service unavailable. Please try again later.")]), w1).

End Fallback.

(** ** circuit_breaker.py *)

Module Breaker.

Inductive CircuitState : Type := CLOSED | OPEN | HALF_OPEN.

Definition state_eqb (a b : CircuitState) : bool :=
  match a, b with
  | CLOSED, CLOSED | OPEN, OPEN | HALF_OPEN, HALF_OPEN => true
  | _, _ => false
  end.

Record CircuitBreaker : Type := mkBreaker {
  failure_threshold : Z;
  recovery_timeout : Z;
  fallback_handler : string -> list value -> kwargs -> World -> outcome value * World;
  state : CircuitState;
  failure_count : Z;
  last_failure_time : Z
}.

(** [CircuitBreaker.__init__] *)
Definition init (failure_threshold recovery_timeout : Z)
    (handler : option (string -> list value -> kwargs -> World -> outcome value * World))
    : CircuitBreaker :=
  mkBreaker failure_threshold recovery_timeout
    (default Fallback.get_fallback_response handler) CLOSED 0 0.

Definition set_state (s : CircuitState) (self : CircuitBreaker) : CircuitBreaker :=
  mkBreaker (failure_threshold self) (recovery_timeout self) (fallback_handler self)
    s (failure_count self) (last_failure_time self).

Definition set_failure_count (n : Z) (self : CircuitBreaker) : CircuitBreaker :=
  mkBreaker (failure_threshold self) (recovery_timeout self) (fallback_handler self)
    (state self) n (last_failure_time self).

Definition set_last_failure_time (t : Z) (self : CircuitBreaker) : CircuitBreaker :=
  mkBreaker (failure_threshold self) (recovery_timeout self) (fallback_handler self)
    (state self) (failure_count self) t.

Definition record_failure (self : CircuitBreaker) (w : World) : CircuitBreaker * World :=
  let self1 := set_failure_count (failure_count self + 1) self in
  let self2 := set_last_failure_time (time_now (env w)) self1 in
  let '(self3, w3) :=
    if state_eqb (state self2) CLOSED && (failure_threshold self2 <=? failure_count self2)
    then (set_state OPEN self2,
          log WARNING ("Circuit opening after " +:+ pretty (failure_count self2) +:+ " failures") w)
    else (self2, w) in
  if state_eqb (state self3) HALF_OPEN
  then (set_state OPEN self3, log WARNING "Failed during recovery, reopening circuit" w3)
  else (self3, w3).

(** [logger.warning(...)] and [return self.fallback_handler(func.__name__,
    ...)], as written at lines 82-83 and again at lines 102-103. *)
Definition use_fallback (self : CircuitBreaker) (func : Callable)
    (args : list value) (kw : kwargs) (w : World)
    : outcome value * CircuitBreaker * World :=
  let '(r, w1) :=
    fallback_handler self (__name__ func) args kw
      (log WARNING ("Circuit is open, using fallback for " +:+ __name__ func) w) in
  (r, self, w1).

(** The [try] statement of [call] (lines 85 to 107). *)
Definition call_try (self : CircuitBreaker) (func : Callable)
    (args : list value) (kw : kwargs) (w : World)
    : outcome value * CircuitBreaker * World :=
  match invoke func args kw w with
  | (Returned result, w1) =>
      if state_eqb (state self) HALF_OPEN then
        (Returned result,
         set_failure_count 0 (set_state CLOSED self),
         log INFO "Service is available again, closing circuit" w1)
      else (Returned result, self, w1)
  | (Raised e, w1) =>
      let '(self1, w2) := record_failure self w1 in
      if state_eqb (state self1) OPEN then use_fallback self1 func args kw w2
      else
        (Raised e, self1,
         log ERROR ("Error in " +:+ __name__ func +:+ ": " +:+ exn_str e) w2)
  end.

Definition call (self : CircuitBreaker) (func : Callable)
    (args : list value) (kw : kwargs) (w : World)
    : outcome value * CircuitBreaker * World :=
  if state_eqb (state self) OPEN then
    if last_failure_time self + recovery_timeout self <? time_now (env w) then
      call_try (set_state HALF_OPEN self) func args kw
        (log INFO "Circuit half-open, testing service availability" w)
    else use_fallback self func args kw w
  else call_try self func args kw w.

(** [CircuitBreaker.__call__]: the decorator.  The wrapper hands its
    arguments, as they come, to [call]. *)
Definition __call__ (self : CircuitBreaker) (func : Callable)
    : list value -> kwargs -> World -> outcome value * CircuitBreaker * World :=
  fun args kw => call self func args kw.

(** The breaker that [record_failure] leaves behind when the clock reads
    [t]; used to state its effect. *)
Definition after_failure (self : CircuitBreaker) (t : Z) : CircuitBreaker :=
  mkBreaker (failure_threshold self) (recovery_timeout self) (fallback_handler self)
    (match state self with
     | CLOSED => if failure_threshold self <=? failure_count self + 1 then OPEN else CLOSED
     | _ => OPEN
     end)
    (failure_count self + 1) t.

Arguments after_failure : simpl never.

End Breaker.

(** ** The two stores and the libraries under the cache *)

(** A computation over the world that returns or raises. *)
Definition M (A : Type) : Type := World -> outcome A * World.

Definition ret {A : Type} (a : A) : M A := fun w => (Returned a, w).

Definition raise {A : Type} (e : exn) : M A := fun w => (Raised e, w).

Definition bind {A B : Type} (m : M A) (k : A -> M B) : M B :=
  fun w =>
    match m w with
    | (Returned a, w') => k a w'
    | (Raised e, w') => (Raised e, w')
    end.

(** [try: m except Exception as e: handler e] *)
Definition try_except {A : Type} (m : M A) (handler : exn -> M A) : M A :=
  fun w =>
    match m w with
    | (Returned a, w') => (Returned a, w')
    | (Raised e, w') => handler e w'
    end.

Notation "'do' x <- m ; k" := (bind m (fun x => k))
  (at level 10, x name, m at level 100, k at level 200).
Notation "'do_' m ; k" := (bind m (fun _ => k))
  (at level 10, m at level 100, k at level 200).

Definition tell (lvl : log_level) (msg : string) : M unit :=
  fun w => (Returned tt, log lvl msg w).

Definition utcnow : M Z := fun w => (Returned (time_now (env w)), w).

(** The volatile store (redis.asyncio), by the commands the cache sends:
    GET, and SET with an expire time in seconds. *)
Module Redis.

(** The entry a GET sees: a key is gone once its time of expiry is reached. *)
Definition live (store : gmap string (string * Z)) (t : Z) (key : string)
    : option string :=
  match store !! key with
  | Some (payload, expiry) => if t <? expiry then Some payload else None
  | None => None
  end.

Definition get (key : string) : M (option string) :=
  fun w =>
    if redis_up (env w) then (Returned (live (redis w) (time_now (env w)) key), w)
    else (Raised (Exn RedisConnectionError "Error connecting to Redis"), w).

(** [SET key payload EX ex]; the server refuses an expire time below 1. *)
Definition set (key payload : string) (ex : Z) : M unit :=
  fun w =>
    if redis_up (env w) then
      if ex <=? 0 then
        (Raised (Exn RedisResponseError "invalid expire time in 'set' command"), w)
      else
        (Returned tt, set_redis (<[key := (payload, time_now (env w) + ex)]> (redis w)) w)
    else (Raised (Exn RedisConnectionError "Error connecting to Redis"), w).

(** [DEL key]: the number of keys removed. *)
Definition delete (key : string) : M Z :=
  fun w =>
    if redis_up (env w) then
      (Returned (match live (redis w) (time_now (env w)) key with
                 | Some _ => 1
                 | None => 0
                 end),
       set_redis (base.delete key (redis w)) w)
    else (Raised (Exn RedisConnectionError "Error connecting to Redis"), w).

End Redis.

(** Modelled from the spec: the persistent store behind [get_db].  The
    module app/db/session.py that defines [get_db] is not part of the
    source tree; the spec gives the store as the table [ai_cache] with a
    point lookup by hash, insert, update and commit.  [get_db] is taken to
    yield one session, so the body of each [async for db in get_db()] runs
    once.  Pending changes reach the table at [commit]; [rollback] drops
    them. *)
Module DB.

Definition db_error : exn := Exn OperationalError "could not connect to server".

(** [execute(select(AICache).where(p))] followed by [scalars().first()]:
    the position and the contents of the first row that satisfies [p]. *)
Fixpoint first_from (i : nat) (p : AICache -> bool) (rows : list AICache)
    : option (nat * AICache) :=
  match rows with
  | [] => None
  | r :: rs => if p r then Some (i, r) else first_from (S i) p rs
  end.

Definition select_first (p : AICache -> bool) : M (option (nat * AICache)) :=
  fun w =>
    if db_up (env w) then (Returned (first_from O p (ai_cache w)), w)
    else (Raised db_error, w).

(** [commit] after the attributes of the row at position [i] were set. *)
Definition commit_update (i : nat) (row : AICache) : M unit :=
  fun w =>
    if db_up (env w) then (Returned tt, set_ai_cache (<[i := row]> (ai_cache w)) w)
    else (Raised db_error, w).

(** [commit] after [db.add(row)]: [request_hash] is UNIQUE. *)
Definition commit_add (row : AICache) : M unit :=
  fun w =>
    if db_up (env w) then
      if existsb (fun r => String.eqb (request_hash r) (request_hash row)) (ai_cache w) then
        (Raised (Exn IntegrityError "duplicate key value violates unique constraint"), w)
      else (Returned tt, set_ai_cache (ai_cache w ++ [row]) w)
    else (Raised db_error, w).

Definition rollback : M unit := ret tt.

(** [execute(delete(AICache).where(p))]: the rowcount; the rows go at
    [commit]. *)
Definition execute_delete (p : AICache -> bool) : M Z :=
  fun w =>
    if db_up (env w) then (Returned (Z.of_nat (length (List.filter p (ai_cache w)))), w)
    else (Raised db_error, w).

(** [commit] after the delete of the rows that satisfy [p] was executed. *)
Definition commit_delete (p : AICache -> bool) : M unit :=
  fun w =>
    if db_up (env w) then
      (Returned tt, set_ai_cache (List.filter (fun r => negb (p r)) (ai_cache w)) w)
    else (Raised db_error, w).

(** [execute(select(func.count()).select_from(AICache).where(p))] followed
    by [scalar()]. *)
Definition count_where (p : AICache -> bool) : M Z :=
  fun w =>
    if db_up (env w) then (Returned (Z.of_nat (length (List.filter p (ai_cache w)))), w)
    else (Raised db_error, w).

End DB.

(** What the cache takes from outside the repository: the json module,
    str(), hash() and id(), hashlib.md5 and the jittered wait of the
    backoff package. *)
Record Runtime : Type := mkRuntime {
  json_dumps : value -> string;
  json_loads : string -> option value;   (* None: JSONDecodeError *)
  py_str : value -> string;
  hash_or_id : value -> string;          (* str(hash(v)), or str(id(v)) *)
  md5_hexdigest : string -> string;
  backoff_wait : nat -> Z                (* the wait before retry n *)
}.

(** [ttl or self.default_ttl] *)
Definition ttl_or (ttl : option Z) (default_ttl : Z) : Z :=
  match ttl with
  | Some t => if t =? 0 then default_ttl else t
  | None => default_ttl
  end.

(** [if cached_data:] on the reply of a GET. *)
Definition bytes_truthy (b : option string) : bool :=
  match b with
  | Some s => negb (String.eqb s EmptyString)
  | None => false
  end.

(** [if db_result:] *)
Definition option_truthy (v : option value) : bool :=
  match v with
  | Some x => truthy x
  | None => false
  end.

Definition is_scalar (v : value) : bool :=
  match v with
  | VNone | VBool _ | VInt _ | VStr _ => true
  | VList _ | VDict _ => false
  end.

(** [sorted(kwargs.items())]: by key. *)
Fixpoint insert_sorted (p : string * value) (l : kwargs) : kwargs :=
  match l with
  | [] => [p]
  | q :: qs => if String.leb (fst p) (fst q) then p :: l else q :: insert_sorted p qs
  end.

Definition sorted_items (kw : kwargs) : kwargs := foldr insert_sorted [] kw.

Definition load_json (rt : Runtime) (payload : string) : M value :=
  match json_loads rt payload with
  | Some v => ret v
  | None => raise (Exn JSONDecodeError "Expecting value")
  end.

(** ** enhanced_cache.py *)

Module EnhancedCache.
Section WithRuntime.

Variable rt : Runtime.

Record EnhancedCache : Type := mkCache { default_ttl : Z }.

Definition init : EnhancedCache := mkCache 3600.

(** The predicates given to [backoff.on_exception]. *)
Definition retriable (e : exn) : bool :=
  match exn_kind e with
  | HTTPStatusError _ | TimeoutException | HTTPError => true
  | _ => false
  end.

Definition giveup (e : exn) : bool :=
  match exn_kind e with
  | HTTPStatusError status_code => status_code <? 500
  | _ => false
  end.

Definition max_tries : nat := 3.
Definition max_time : Z := 30.

Definition sleep (seconds : Z) (w : World) : World :=
  set_env (mkEnv (time_now (env w) + seconds) (redis_up (env w)) (db_up (env w))) w.

(** The loop of [backoff.on_exception] around [func]: [tries] attempts
    were made before this one, [start] is the time of the first. *)
Fixpoint retry_loop (tries_left : nat) (tries : nat) (start : Z)
    (func : Callable) (args : list value) (kw : kwargs) (w : World)
    : outcome value * World :=
  let elapsed := time_now (env w) - start in
  match invoke func args kw w with
  | (Returned r, w1) => (Returned r, w1)
  | (Raised e, w1) =>
      match tries_left with
      | O => (Raised e, w1)
      | S n =>
          if retriable e && negb (giveup e) && negb (max_time <=? elapsed)
          then retry_loop n (S tries) start func args kw
                 (sleep (backoff_wait rt (S tries)) w1)
          else (Raised e, w1)
      end
  end.

Definition _execute_with_retry (func : Callable) (args : list value) (kw : kwargs)
    : M value :=
  fun w => retry_loop (max_tries - 1) O (time_now (env w)) func args kw w.

Definition _cache_result (self : EnhancedCache) (cache_key : string)
    (result : value) (ttl : option Z) : M unit :=
  do_ Redis.set cache_key (json_dumps rt result) (ttl_or ttl (default_ttl self));
  do t <- utcnow;
  let expires_at := t + ttl_or ttl (default_ttl self) in
  try_except
    (do cache_entry <- DB.select_first
          (fun r => String.eqb (request_hash r) cache_key);
     match cache_entry with
     | Some (i, row) =>
         DB.commit_update i (mkAICache (request_hash row) result expires_at)
     | None =>
         DB.commit_add (mkAICache cache_key result expires_at)
     end)
    (fun e =>
       do_ DB.rollback;
       tell ERROR ("Error caching result in database: " +:+ exn_str e)).

Definition _get_from_db_cache (cache_key : string) : M (option value) :=
  try_except
    (do t <- utcnow;
     do cache_entry <- DB.select_first
          (fun r => String.eqb (request_hash r) cache_key && (t <? expires_at r));
     match cache_entry with
     | Some (_, row) => ret (Some (response_data row))
     | None => ret None
     end)
    (fun e =>
       do_ tell ERROR ("Error getting cache from database: " +:+ exn_str e);
       ret None).

Definition _generate_cache_key (func : Callable) (args : list value) (kw : kwargs)
    : string :=
  let arg_parts :=
    map (fun arg => if is_scalar arg then py_str rt arg else hash_or_id rt arg) args in
  let kw_parts :=
    map (fun p => fst p +:+ ":" +:+
                  (if is_scalar (snd p) then py_str rt (snd p) else hash_or_id rt (snd p)))
        (sorted_items kw) in
  md5_hexdigest rt (String.concat ":" (__name__ func :: arg_parts ++ kw_parts)).

Definition get_or_execute (self : EnhancedCache) (func : Callable)
    (args : list value) (ttl : option Z) (cache_key : option string)
    (bypass_cache : bool) (kw : kwargs) : M value :=
  let cache_key := default (_generate_cache_key func args kw) cache_key in
  if bypass_cache then _execute_with_retry func args kw
  else
    do cached_data <- Redis.get cache_key;
    if bytes_truthy cached_data then
      do_ tell DEBUG ("Redis cache hit for " +:+ cache_key);
      load_json rt (default EmptyString cached_data)
    else
      do db_result <- _get_from_db_cache cache_key;
      if option_truthy db_result then
        do_ tell DEBUG ("DB cache hit for " +:+ cache_key);
        do_ Redis.set cache_key (json_dumps rt (default VNone db_result))
              (ttl_or ttl (default_ttl self));
        ret (default VNone db_result)
      else
        do_ tell DEBUG ("Cache miss for " +:+ cache_key +:+ ", executing function with retry");
        do result <- _execute_with_retry func args kw;
        do_ _cache_result self cache_key result ttl;
        ret result.

Definition invalidate (cache_key : string) : M unit :=
  do_ Redis.delete cache_key;
  try_except
    (do_ DB.execute_delete (fun r => String.eqb (request_hash r) cache_key);
     DB.commit_delete (fun r => String.eqb (request_hash r) cache_key))
    (fun e =>
       do_ DB.rollback;
       tell ERROR ("Error invalidating cache: " +:+ exn_str e)).

(** [count] is 0 until [result.rowcount] is assigned to it, and is what
    the function returns also when the commit that follows raises. *)
Definition cleanup_expired : M Z :=
  try_except
    (do t <- utcnow;
     do count <- DB.execute_delete (fun r => expires_at r <? t);
     try_except
       (do_ DB.commit_delete (fun r => expires_at r <? t);
        do_ tell INFO ("Removed " +:+ pretty count +:+ " expired cache entries");
        ret count)
       (fun e =>
          do_ DB.rollback;
          do_ tell ERROR ("Error cleaning up expired cache: " +:+ exn_str e);
          ret count))
    (fun e =>
       do_ DB.rollback;
       do_ tell ERROR ("Error cleaning up expired cache: " +:+ exn_str e);
       ret 0).

(** What [get_stats] takes from outside the model: the replies of the
    Redis commands DBSIZE and INFO memory, and the column [created_at]
    that every table inherits from [Base] (app/db/base_class.py) with its
    [isoformat()]. *)
Record StatsRuntime : Type := mkStatsRuntime {
  redis_dbsize : World -> Z;
  redis_info_memory : World -> list (string * value);
  created_at : AICache -> Z;
  isoformat : Z -> string
}.

(** The names bound at module level in enhanced_cache.py: its imports, and
    what it defines. *)
Definition module_globals : list string :=
  ["logging"; "json"; "hashlib"; "backoff"; "datetime"; "timedelta";
   "Optional"; "Any"; "Dict"; "TypeVar"; "Callable"; "Awaitable"; "cast";
   "redis"; "AsyncSession"; "select"; "update"; "delete";
   "HTTPError"; "TimeoutException"; "settings"; "AICache";
   "logger"; "T"; "EnhancedCache"; "enhanced_cache"].

(** Reading a name that the function does not bind: found at module level,
    or NameError. *)
Definition load_global (name : string) : M unit :=
  if existsb (String.eqb name) module_globals then ret tt
  else raise (Exn OtherException ("name '" +:+ name +:+ "' is not defined")).

(** The statements of a [try] block that share the dict [stats]: they run
    in order until one raises; what was stored in [stats] by then stays. *)
Fixpoint run_block (steps : list (list (string * value) -> M (list (string * value))))
    (stats : list (string * value)) (w : World)
    : option exn * list (string * value) * World :=
  match steps with
  | [] => (None, stats, w)
  | step :: rest =>
      match step stats w with
      | (Returned stats', w') => run_block rest stats' w'
      | (Raised e, w') => (Some e, stats, w')
      end
  end.

Definition first_by (better : Z -> Z -> bool) (key : AICache -> Z)
    (rows : list AICache) : option AICache :=
  foldl (fun best r =>
           match best with
           | Some b => if better (key r) (key b) then Some r else Some b
           | None => Some r
           end) None rows.

Variable srt : StatsRuntime.

Definition get_stats : World -> list (string * value) * World :=
  fun w =>
    let stats0 :=
      [("total_entries", VInt 0);
       ("active_entries", VInt 0);
       ("expired_entries", VInt 0);
       ("redis_keys", VInt 0);
       ("redis_memory_used", VStr "0");
       ("db_oldest_entry", VNone);
       ("db_newest_entry", VNone)] in
    (* Redis stats *)
    let '(err1, stats1, w1) :=
      run_block
        [ (fun stats w =>
             if redis_up (env w)
             then (Returned (dict_set "redis_keys" (VInt (redis_dbsize srt w)) stats), w)
             else (Raised (Exn RedisConnectionError "Error connecting to Redis"), w));
          (fun stats w =>
             if redis_up (env w)
             then (Returned
                     (dict_set "redis_memory_used"
                        (default (VStr "0")
                           (dict_get "used_memory_human" (redis_info_memory srt w)))
                        stats), w)
             else (Raised (Exn RedisConnectionError "Error connecting to Redis"), w)) ]
        stats0 w in
    let w1' :=
      match err1 with
      | Some e => log ERROR ("Error getting Redis stats: " +:+ exn_str e) w1
      | None => w1
      end in
    (* Database stats *)
    let '(err2, stats2, w2) :=
      run_block
        [ (fun stats =>
             do_ load_global "func";
             do n <- DB.count_where (fun _ => true);
             ret (dict_set "total_entries" (VInt n) stats));
          (fun stats =>
             do_ load_global "func";
             do t <- utcnow;
             do n <- DB.count_where (fun r => t <? expires_at r);
             ret (dict_set "active_entries" (VInt n) stats));
          (fun stats =>
             match dict_get "total_entries" stats, dict_get "active_entries" stats with
             | Some (VInt total), Some (VInt active) =>
                 ret (dict_set "expired_entries" (VInt (total - active)) stats)
             | _, _ => raise (Exn TypeError "unsupported operand type(s) for -")
             end);
          (fun stats w =>
             if db_up (env w) then
               (Returned
                  match first_by Z.ltb (created_at srt) (ai_cache w) with
                  | Some oldest =>
                      dict_set "db_oldest_entry"
                        (VStr (isoformat srt (created_at srt oldest))) stats
                  | None => stats
                  end, w)
             else (Raised DB.db_error, w));
          (fun stats w =>
             if db_up (env w) then
               (Returned
                  match first_by Z.gtb (created_at srt) (ai_cache w) with
                  | Some newest =>
                      dict_set "db_newest_entry"
                        (VStr (isoformat srt (created_at srt newest))) stats
                  | None => stats
                  end, w)
             else (Raised DB.db_error, w)) ]
        stats1 w1' in
    let w2' :=
      match err2 with
      | Some e => log ERROR ("Error getting database cache stats: " +:+ exn_str e) w2
      | None => w2
      end in
    (stats2, w2').

End WithRuntime.
End EnhancedCache.

(** ** cache.py *)

Module FluxAICache.
Section WithRuntime.

Variable rt : Runtime.

Record FluxAICache : Type := mkCache { default_ttl : Z }.

Definition init : FluxAICache := mkCache 3600.

Definition _cache_result (self : FluxAICache) (cache_key : string)
    (result : value) (ttl : option Z) : M unit :=
  do_ Redis.set cache_key (json_dumps rt result) (ttl_or ttl (default_ttl self));
  do t <- utcnow;
  let expires_at := t + ttl_or ttl (default_ttl self) in
  try_except
    (DB.commit_add (mkAICache cache_key result expires_at))
    (fun e =>
       do_ DB.rollback;
       tell ERROR ("Error caching result in database: " +:+ exn_str e)).

Definition _get_from_db_cache (cache_key : string) : M (option value) :=
  try_except
    (do t <- utcnow;
     do cache_entry <- DB.select_first
          (fun r => String.eqb (request_hash r) cache_key && (t <? expires_at r));
     match cache_entry with
     | Some (_, row) => ret (Some (response_data row))
     | None => ret None
     end)
    (fun e =>
       do_ tell ERROR ("Error getting cache from database: " +:+ exn_str e);
       ret None).

Definition _generate_cache_key (func : Callable) (args : list value) (kw : kwargs)
    : string :=
  let arg_parts := map (py_str rt) args in
  let kw_parts := map (fun p => fst p +:+ ":" +:+ py_str rt (snd p)) (sorted_items kw) in
  md5_hexdigest rt (String.concat ":" (__name__ func :: arg_parts ++ kw_parts)).

Definition get_or_execute (self : FluxAICache) (func : Callable)
    (args : list value) (ttl : option Z) (cache_key : option string)
    (kw : kwargs) : M value :=
  let cache_key := default (_generate_cache_key func args kw) cache_key in
  do cached_data <- Redis.get cache_key;
  if bytes_truthy cached_data then
    do_ tell DEBUG ("Redis cache hit for " +:+ cache_key);
    load_json rt (default EmptyString cached_data)
  else
    do db_result <- _get_from_db_cache cache_key;
    if option_truthy db_result then
      do_ tell DEBUG ("DB cache hit for " +:+ cache_key);
      do_ Redis.set cache_key (json_dumps rt (default VNone db_result))
            (ttl_or ttl (default_ttl self));
      ret (default VNone db_result)
    else
      do_ tell DEBUG ("Cache miss for " +:+ cache_key +:+ ", executing function");
      do result <- invoke func args kw;
      do_ _cache_result self cache_key result ttl;
      ret result.

Definition invalidate (cache_key : string) : M unit :=
  do_ Redis.delete cache_key;
  try_except
    (do_ DB.execute_delete (fun r => String.eqb (request_hash r) cache_key);
     DB.commit_delete (fun r => String.eqb (request_hash r) cache_key))
    (fun e =>
       do_ DB.rollback;
       tell ERROR ("Error invalidating cache: " +:+ exn_str e)).

(** [count] is 0 until [result.rowcount] is assigned to it, and is what
    the function returns also when the commit that follows raises. *)
Definition cleanup_expired : M Z :=
  try_except
    (do t <- utcnow;
     do count <- DB.execute_delete (fun r => expires_at r <? t);
     try_except
       (do_ DB.commit_delete (fun r => expires_at r <? t);
        do_ tell INFO ("Removed " +:+ pretty count +:+ " expired cache entries");
        ret count)
       (fun e =>
          do_ DB.rollback;
          do_ tell ERROR ("Error cleaning up expired cache: " +:+ exn_str e);
          ret count))
    (fun e =>
       do_ DB.rollback;
       do_ tell ERROR ("Error cleaning up expired cache: " +:+ exn_str e);
       ret 0).

End WithRuntime.
End FluxAICache.

(** ** Sequences of calls on one key *)

(** A later call: what is called, and the environment at the time of the
    call (time has passed, a store may have gone down or come back). *)
Record request : Type := mkRequest {
  req_func : Callable;
  req_args : list value;
  req_kwargs : kwargs;
  req_ttl : option Z;
  req_env : Env
}.

(** The calls [reqs], one after the other, through [get]. *)
Fixpoint serve (get : Callable -> list value -> option Z -> kwargs -> M value)
    (reqs : list request) (w : World) : list (outcome value) * World :=
  match reqs with
  | [] => ([], w)
  | q :: qs =>
      let '(r, w1) :=
        get (req_func q) (req_args q) (req_ttl q) (req_kwargs q)
          (set_env (req_env q) w) in
      let '(rs, w2) := serve get qs w1 in
      (r :: rs, w2)
  end.

(** The call is made with the volatile store up and before [expiry]. *)
Definition before_expiry (expiry : Z) (q : request) : Prop :=
  redis_up (req_env q) = true /\ time_now (req_env q) < expiry.

(** [w'] extends the calls of [w] by an await of [func], maybe more. *)
Definition awaited (func : Callable) (w w' : World) : Prop :=
  exists rest, calls w' = (calls w ++ __name__ func :: rest)%list.

(** No row of the table with key [key] is still valid at time [t]. *)
Definition all_expired (key : string) (t : Z) (rows : list AICache) : Prop :=
  forall r, In r rows -> request_hash r = key -> expires_at r < t.

(** The rows of the table with key [key]. *)
Definition rows_of (key : string) (rows : list AICache) : list AICache :=
  List.filter (fun r => String.eqb (request_hash r) key) rows.

(** ** Sequences of calls through one breaker *)

(** The calls [reqs], one after the other, through the breaker [self]. *)
Fixpoint run_calls (self : Breaker.CircuitBreaker) (reqs : list request) (w : World)
    : list (outcome value) * Breaker.CircuitBreaker * World :=
  match reqs with
  | [] => ([], self, w)
  | q :: qs =>
      let '(r, self1, w1) :=
        Breaker.call self (req_func q) (req_args q) (req_kwargs q)
          (set_env (req_env q) w) in
      let '(rs, self2, w2) := run_calls self1 qs w1 in
      (r :: rs, self2, w2)
  end.


(** What the function of a request does when awaited at the time of the
    request. *)
Definition own_outcome (q : request) : outcome value :=
  (body (req_func q) (req_args q) (req_kwargs q) (req_env q)).1.

Definition fails (q : request) : bool :=
  match own_outcome q with
  | Raised _ => true
  | Returned _ => false
  end.

(** ** client.py *)

Module FluxAIClient.

(** A method of [FluxAIClient] is the wrapper that [@circuit_breaker]
    returns, stored on the class: called on an instance, it gets the
    instance as its first positional argument. *)
Definition call_method (breaker : Breaker.CircuitBreaker) (client : value)
    (method : Callable) (args : list value) (kw : kwargs) (w : World)
    : outcome value * Breaker.CircuitBreaker * World :=
  Breaker.__call__ breaker method (client :: args) kw w.

End FluxAIClient.

(** The write to the persistent tier, as a function on the table: what
    [EnhancedCache._cache_result] does to it when the database answers. *)
Definition upsert (key : string) (result : value) (expiry : Z)
    (rows : list AICache) : list AICache :=
  match DB.first_from O (fun r => String.eqb (request_hash r) key) rows with
  | Some (i, row) => <[i := mkAICache (request_hash row) result expiry]> rows
  | None => (rows ++ [mkAICache key result expiry])%list
  end.

(** ** Sample data for the worked examples *)

Module Samples.

Definition env0 : Env := mkEnv 1000 true true.

Definition world0 : World := mkWorld env0 ∅ [] [] [].

Definition boom : exn := Exn HTTPError "connection refused".

(** A remote operation that is down: awaiting it takes one tick and raises. *)
Definition failing (name : string) : Callable :=
  mkCallable name
    (fun _ _ e => (Raised boom, mkEnv (time_now e + 1) (redis_up e) (db_up e))).

(** A remote operation that answers [v] after one tick. *)
Definition answering (name : string) (v : value) : Callable :=
  mkCallable name
    (fun _ _ e => (Returned v, mkEnv (time_now e + 1) (redis_up e) (db_up e))).

Definition breaker (threshold : Z) (s : Breaker.CircuitState) (count : Z)
    : Breaker.CircuitBreaker :=
  Breaker.mkBreaker threshold 30 Fallback.get_fallback_response s count 0.

(** A breaker built with failure_threshold = 3, after three failing calls. *)
Definition tripped : Breaker.CircuitBreaker :=
  let self := Breaker.init 3 30 None in
  let f := failing "list_files" in
  let b1 := (Breaker.call self f [] [] world0).1.2 in
  let b2 := (Breaker.call b1 f [] [] world0).1.2 in
  (Breaker.call b2 f [] [] world0).1.2.

(** A breaker built with the defaults, after two failing calls. *)
Definition strained : Breaker.CircuitBreaker :=
  let self := Breaker.init 5 30 None in
  let f := failing "list_files" in
  let b1 := (Breaker.call self f [] [] world0).1.2 in
  (Breaker.call b1 f [] [] world0).1.2.

(** The world forty ticks after [world0]. *)
Definition world40 : World := mkWorld (mkEnv 1040 true true) ∅ [] [] [].

Definition quote : string := String (Ascii.ascii_of_nat 34) EmptyString.

(** A json printer in the layout of json.dumps (no escapes). *)
Fixpoint dumps (v : value) : string :=
  match v with
  | VNone => "null"
  | VBool true => "true"
  | VBool false => "false"
  | VInt n => pretty n
  | VStr s => quote +:+ s +:+ quote
  | VList l => "[" +:+ String.concat ", " (map dumps l) +:+ "]"
  | VDict d =>
      "{" +:+ String.concat ", "
                (map (fun p => quote +:+ fst p +:+ quote +:+ ": " +:+ dumps (snd p)) d)
          +:+ "}"
  end.

Definition old_answer : value := VDict [("data", VList [VStr "old"])].
Definition new_answer : value := VDict [("data", VList [VStr "new"])].

(** The reader knows the texts of the sample payloads. *)
Definition loads (s : string) : option value :=
  List.find (fun v => String.eqb (dumps v) s) [old_answer; new_answer; VNone].

Definition py_str_of (v : value) : string :=
  match v with
  | VNone => "None"
  | VBool true => "True"
  | VBool false => "False"
  | VStr s => s
  | _ => dumps v
  end.

Definition rt : Runtime :=
  mkRuntime dumps loads py_str_of (fun _ => "0") (fun s => s) (fun _ => 1).

(** Both tiers hold a valid entry for the key "k". *)
Definition world_cached : World :=
  mkWorld env0 {["k" := (dumps old_answer, 4000)]}
    [mkAICache "k" old_answer 4000] [] [].

(** Only the persistent tier holds an entry for "k", and it has expired. *)
Definition world_stale : World :=
  mkWorld env0 ∅ [mkAICache "k" old_answer 900] [] [].


(** The database is down. *)
Definition world_db_down : World :=
  mkWorld (mkEnv 1000 true false) ∅ [] [] [].


(** A remote operation that answers [v] while the database goes down. *)
Definition answering_db_lost (name : string) (v : value) : Callable :=
  mkCallable name (fun _ _ e => (Returned v, mkEnv (time_now e + 1) (redis_up e) false)).

(** [world0] after a first call on the key "k" that missed both tiers. *)
Definition world_after_miss : World :=
  (EnhancedCache.get_or_execute rt EnhancedCache.init
     (answering "list_files" new_answer) [] None (Some "k") false [] world0).2.

Definition flux_world_after_miss : World :=
  (FluxAICache.get_or_execute rt FluxAICache.init
     (answering "list_files" new_answer) [] None (Some "k") [] world0).2.

(** Two later calls on "k" with other functions, the second one tick
    before the entry expires and with the database down. *)
Definition later_calls : list request :=
  [mkRequest (answering "get_file" old_answer) [] [] None (mkEnv 2000 true true);
   mkRequest (failing "list_files") [] [] (Some 5) (mkEnv 4600 true false)].

(** Calls through a breaker: a failure, a success, a failure, a success. *)
Definition mixed_calls : list request :=
  [mkRequest (failing "list_files") [] [] None (mkEnv 1000 true true);
   mkRequest (answering "list_files" old_answer) [] [] None (mkEnv 1010 true true);
   mkRequest (failing "get_file") [VStr "f1"] [] None (mkEnv 1020 true true);
   mkRequest (answering "list_files" new_answer) [] [] None (mkEnv 1030 true true)].

(** The instance of [FluxAIClient] that the methods are called on. *)
Definition client : value :=
  VDict [("api_key", VStr "secret"); ("base_url", VStr "https://ai.example")].

(** A remote operation that refuses the request with status 404. *)
Definition rejecting (name : string) : Callable :=
  mkCallable name
    (fun _ _ e => (Raised (Exn (HTTPStatusError 404) "Client error '404 Not Found'"),
                   mkEnv (time_now e + 1) (redis_up e) (db_up e))).

(** A remote operation that answers 503 until time 1002 and [v] from then
    on. *)
Definition flaky (name : string) (v : value) : Callable :=
  mkCallable name
    (fun _ _ e =>
       if time_now e <? 1002
       then (Raised (Exn (HTTPStatusError 503) "Server error '503 Service Unavailable'"),
             mkEnv (time_now e + 1) (redis_up e) (db_up e))
       else (Returned v, mkEnv (time_now e + 1) (redis_up e) (db_up e))).

(** Only the persistent tier holds an entry for "k": it expires at 1001. *)
Definition world_row_ending : World :=
  mkWorld env0 ∅ [mkAICache "k" old_answer 1001] [] [].

(** Only the persistent tier holds an entry for "k": a valid row with an
    empty dict as payload. *)
Definition world_row_empty : World :=
  mkWorld env0 ∅ [mkAICache "k" (VDict []) 4000] [] [].

(** A table with two expired rows and two valid ones at time 1000; the
    volatile tier holds the entry of "b". *)
Definition world_mixed : World :=
  mkWorld env0 {["b" := (dumps new_answer, 4000)]}
    [mkAICache "a" old_answer 900;
     mkAICache "b" new_answer 4000;
     mkAICache "c" old_answer 999;
     mkAICache "d" old_answer 1000] [] [].

Definition hello : list value :=
  [VDict [("role", VStr "user"); ("content", VStr "hello")]].

End Samples.

(** * Properties *)

(** ** Facts about circuit_breaker.py *)

Module BreakerFacts.
Import Breaker.


Lemma invoke_body (func : Callable) args kw w r v :
  body func args kw (env w) = (r, v) ->
  invoke func args kw w =
    (r, mkWorld v (redis w) (ai_cache w) (calls w ++ [__name__ func]) (logged w)).
Proof. intros H. unfold invoke. now rewrite H. Qed.

Lemma record_failure_breaker (self : CircuitBreaker) (w : World) :
  (record_failure self w).1 = after_failure self (time_now (env w)).
Proof.
  unfold record_failure, after_failure.
  destruct self as [thr rt h s n t]; simpl.
  destruct s; simpl; try reflexivity.
  destruct (thr <=? n + 1); reflexivity.
Qed.

Lemma record_failure_world (self : CircuitBreaker) (w : World) :
  let w' := (record_failure self w).2 in
  env w' = env w /\ redis w' = redis w /\ ai_cache w' = ai_cache w /\ calls w' = calls w.
Proof.
  unfold record_failure.
  destruct self as [thr rt h s n t]; simpl.
  destruct s; simpl; try (destruct (thr <=? n + 1)); simpl; auto.
Qed.

(** A failed attempt: bookkeeping first, then the fallback if the breaker
    is open after it, the error otherwise. *)
Lemma call_try_raised (self : CircuitBreaker) (func : Callable) args kw w e v :
  body func args kw (env w) = (Raised e, v) ->
  let self1 := after_failure self (time_now v) in
  let w2 := (record_failure self
               (mkWorld v (redis w) (ai_cache w) (calls w ++ [__name__ func])
                  (logged w))).2 in
  call_try self func args kw w =
    if state_eqb (state self1) OPEN then use_fallback self1 func args kw w2
    else (Raised e, self1,
          log ERROR ("Error in " +:+ __name__ func +:+ ": " +:+ exn_str e) w2).
Proof.
  intros H. unfold call_try. rewrite (invoke_body _ _ _ _ _ _ H).
  match goal with |- context [record_failure self ?w1] =>
    pose proof (record_failure_breaker self w1) as Hb;
    destruct (record_failure self w1) as [s1 w2] end.
  simpl in Hb. subst s1. reflexivity.
Qed.

Lemma call_try_raised_calls (self : CircuitBreaker) (func : Callable) w v :
  calls (record_failure self
           (mkWorld v (redis w) (ai_cache w) (calls w ++ [__name__ func])
              (logged w))).2
  = (calls w ++ [__name__ func])%list.
Proof.
  match goal with |- context [record_failure self ?w1] =>
    pose proof (record_failure_world self w1) as (_ & _ & _ & H) end.
  exact H.
Qed.

Lemma call_try_returned (self : CircuitBreaker) (func : Callable) args kw w r w1 :
  invoke func args kw w = (Returned r, w1) ->
  call_try self func args kw w =
    if state_eqb (state self) HALF_OPEN then
      (Returned r, set_failure_count 0 (set_state CLOSED self),
       log INFO "Service is available again, closing circuit" w1)
    else (Returned r, self, w1).
Proof. intros H. unfold call_try. now rewrite H. Qed.

(** While the breaker is open and the timeout has not elapsed, [call] is the
    fallback: the body of [func] plays no part. *)
Lemma call_open_within_timeout (self : CircuitBreaker) (func : Callable) args kw w :
  state self = OPEN ->
  time_now (env w) - last_failure_time self <= recovery_timeout self ->
  call self func args kw w = use_fallback self func args kw w.
Proof.
  intros Hs Ht. unfold call. rewrite Hs. simpl.
  destruct (Z.ltb_spec (last_failure_time self + recovery_timeout self) (time_now (env w)));
    [lia | reflexivity].
Qed.


End BreakerFacts.

(** ** Circuit breaker *)

Module BreakerClaims.
Import Breaker BreakerFacts.

Lemma use_fallback_breaker (self : CircuitBreaker) func args kw w :
  (use_fallback self func args kw w).1.2 = self.
Proof.
  unfold use_fallback.
  now destruct (fallback_handler self (__name__ func) args kw _).
Qed.









(** C4.  When the breaker is OPEN and more than recovery_timeout has elapsed
    since last_failure_time, the call is let through as a trial: the state
    is HALF_OPEN while the wrapped function is awaited.  If the trial
    returns, the call returns its result, the state is CLOSED and
    failure_count is 0; if it raises, the state is OPEN again. *)
Theorem C4_recovery_trial
    (self : CircuitBreaker) (func : Callable) (args : list value) (kw : kwargs)
    (w : World) :
  state self = OPEN ->
  recovery_timeout self < time_now (env w) - last_failure_time self ->
  let trial := set_state HALF_OPEN self in
  let w0 := log INFO "Circuit half-open, testing service availability" w in
  state trial = HALF_OPEN /\
  call self func args kw w = call_try trial func args kw w0 /\
  (forall r v, body func args kw (env w) = (Returned r, v) ->
     exists self' w',
       call self func args kw w = (Returned r, self', w') /\
       state self' = CLOSED /\ failure_count self' = 0 /\
       calls w' = (calls w ++ [__name__ func])%list) /\
  (forall e v, body func args kw (env w) = (Raised e, v) ->
     state (call self func args kw w).1.2 = OPEN).
Proof.
  intros Hs Ht trial w0.
  assert (Hcall : call self func args kw w = call_try trial func args kw w0).
  { unfold call. rewrite Hs. simpl.
    destruct (Z.ltb_spec (last_failure_time self + recovery_timeout self)
                (time_now (env w))); [reflexivity | lia]. }
  repeat split.
  - exact Hcall.
  - intros r v Hb.
    assert (Hinv := invoke_body func args kw w0 _ _ Hb).
    rewrite Hcall, (call_try_returned _ _ _ _ _ _ _ Hinv). simpl.
    eexists _, _. split; [reflexivity |]. simpl. auto.
  - intros e v Hb.
    rewrite Hcall, (call_try_raised trial func args kw w0 e v Hb). cbv zeta.
    assert (Hst : state (after_failure trial (time_now v)) = OPEN) by reflexivity.
    rewrite Hst. simpl. rewrite use_fallback_breaker. exact Hst.
Qed.

(** The instance of C4 on a tripped breaker, forty ticks later, with a
    remote operation that answers again. *)
Lemma C4_recovery_witness :
  state Samples.tripped = OPEN /\
  recovery_timeout Samples.tripped
    < time_now (env Samples.world40) - last_failure_time Samples.tripped /\
  exists self' w',
    call Samples.tripped (Samples.answering "get_file" VNone) [] [] Samples.world40
      = (Returned VNone, self', w') /\
    state self' = CLOSED /\ failure_count self' = 0 /\
    calls w' = (calls Samples.world40 ++ ["get_file"])%list.
Proof.
  split; [reflexivity |]. split; [reflexivity |].
  pose proof (C4_recovery_trial
    Samples.tripped (Samples.answering "get_file" VNone) [] [] Samples.world40
    eq_refl eq_refl) as (_ & _ & Hok & _).
  exact (Hok VNone (mkEnv 1041 true true) eq_refl).
Defined.

(** C9, refuted.  A breaker built with the defaults, after two failing
    calls, is CLOSED with failure_count = 2; a successful call leaves
    failure_count at 2. *)
Lemma C9_counterexample :
  state Samples.strained = CLOSED /\
  failure_count Samples.strained = 2 /\
  (call Samples.strained (Samples.answering "list_files" (VDict [])) [] []
     Samples.world0).1.1 = Returned (VDict []) /\
  failure_count
    (call Samples.strained (Samples.answering "list_files" (VDict [])) [] []
       Samples.world0).1.2 = 2 /\
  failure_count
    (call Samples.strained (Samples.answering "list_files" (VDict [])) [] []
       Samples.world0).1.2 <> 0.
Proof. repeat split; try reflexivity. vm_compute. discriminate. Qed.

(** C9, amended.  A call made while the breaker is CLOSED whose wrapped
    function returns hands back that result and leaves the breaker as it
    was: failure_count keeps the value it had before the call (so it is 0
    after the call only if it was 0 before). *)
Theorem C9_closed_success_keeps_failure_count
    (self : CircuitBreaker) (func : Callable) (args : list value) (kw : kwargs)
    (w : World) (r : value) (v : Env) :
  state self = CLOSED ->
  body func args kw (env w) = (Returned r, v) ->
  (call self func args kw w).1.1 = Returned r /\
  (call self func args kw w).1.2 = self /\
  failure_count (call self func args kw w).1.2 = failure_count self.
Proof.
  intros Hs Hb. unfold call. rewrite Hs. simpl.
  rewrite (call_try_returned _ _ _ _ _ _ _ (invoke_body _ _ _ _ _ _ Hb)).
  rewrite Hs. simpl. auto.
Qed.

Lemma C9_closed_success_witness :
  state Samples.strained = CLOSED /\
  (call Samples.strained (Samples.answering "list_files" (VDict [])) [] []
     Samples.world0).1.2 = Samples.strained.
Proof.
  split; [reflexivity |].
  exact (proj1 (proj2 (C9_closed_success_keeps_failure_count
    Samples.strained (Samples.answering "list_files" (VDict [])) [] []
    Samples.world0 (VDict []) (mkEnv 1001 true true) eq_refl eq_refl))).
Defined.

End BreakerClaims.

(** ** Fallback strategy table *)

Module FallbackClaims.
Import Fallback.

(** C10, refuted.  The fallback for chat_completion carries no failure
    flag: it has no success entry (the other fallbacks map success to
    False) and no boolean occurs anywhere in it. *)
Lemma C10_counterexample :
  exists resp w',
    get_fallback_response "chat_completion" []
      [("messages", VList Samples.hello)] Samples.world0
    = (Returned (VDict resp), w') /\
    dict_get "success" resp = None /\
    contains_bool (VDict resp) = false /\
    (get_fallback_response "list_files" [] [] Samples.world0).1
    = Returned (VDict [
        ("success", VBool false);
        ("message", VStr "Unable to fetch files from AI service at this time.");
        ("data", VList []);
        ("count", VInt 0)]).
Proof. eexists _, _. repeat split. Qed.

(** C10, amended.  For every messages value,
    get_fallback_response("chat_completion", messages=...) returns a
    response with exactly one choice, whose message has role assistant and
    a non-empty content, and with one usage entry whose completion_tokens,
    prompt_tokens and total_tokens are 0.  The response is marked as
    degraded by id = fallback_response and model = fallback only: it has
    no success entry and holds no boolean. *)
Theorem C10_chat_fallback_shape (messages : value) (w : World) :
  exists resp content,
    get_fallback_response "chat_completion" [] [("messages", messages)] w
    = (Returned (VDict resp), log WARNING "Using fallback for chat_completion" w) /\
    dict_get "choices" resp
    = Some (VList [VDict [("finish_reason", VStr "stop");
                          ("message", VDict [("role", VStr "assistant");
                                             ("content", VStr content)])]]) /\
    content <> EmptyString /\
    dict_get "usage" resp
    = Some (VList [VDict [("completion_tokens", VInt 0);
                          ("prompt_tokens", VInt 0);
                          ("total_tokens", VInt 0)]]) /\
    dict_get "id" resp = Some (VStr "fallback_response") /\
    dict_get "model" resp = Some (VStr "fallback") /\
    dict_get "success" resp = None /\
    contains_bool (VDict resp) = false.
Proof.
  eexists _, _. split; [reflexivity |].
  repeat split. discriminate.
Qed.

End FallbackClaims.

(** ** Facts about the two stores *)

Module StoreFacts.

Lemma redis_get_up (key : string) (w : World) :
  redis_up (env w) = true ->
  Redis.get key w = (Returned (Redis.live (redis w) (time_now (env w)) key), w).
Proof. intros H. unfold Redis.get. now rewrite H. Qed.

Lemma redis_get_world (key : string) (w w' : World) o :
  Redis.get key w = (o, w') -> w' = w.
Proof. unfold Redis.get. destruct (redis_up (env w)); congruence. Qed.

Lemma redis_set_ok (key payload : string) (ex : Z) (w : World) :
  redis_up (env w) = true -> 0 < ex ->
  Redis.set key payload ex w =
    (Returned tt, set_redis (<[key := (payload, time_now (env w) + ex)]> (redis w)) w).
Proof.
  intros H Hex. unfold Redis.set. rewrite H.
  destruct (Z.leb_spec ex 0); [lia | reflexivity].
Qed.

Lemma redis_set_returned (key payload : string) (ex : Z) (w w' : World) u :
  Redis.set key payload ex w = (Returned u, w') ->
  redis_up (env w) = true /\ 0 < ex /\
  w' = set_redis (<[key := (payload, time_now (env w) + ex)]> (redis w)) w.
Proof.
  unfold Redis.set. destruct (redis_up (env w)); [| discriminate].
  destruct (Z.leb_spec ex 0) as [Hle | Hlt]; [discriminate |].
  intros Heq. inversion Heq. auto.
Qed.

Lemma redis_set_raised (key payload : string) (ex : Z) (w w' : World) e :
  Redis.set key payload ex w = (Raised e, w') -> w' = w.
Proof.
  unfold Redis.set. destruct (redis_up (env w)); [| congruence].
  destruct (ex <=? 0); congruence.
Qed.

Lemma live_insert_eq (store : gmap string (string * Z)) key payload expiry t :
  t < expiry -> Redis.live (<[key := (payload, expiry)]> store) t key = Some payload.
Proof.
  intros H. unfold Redis.live. rewrite lookup_insert_eq.
  destruct (Z.ltb_spec t expiry); [reflexivity | lia].
Qed.

Lemma first_from_none (p : AICache -> bool) (rows : list AICache) (i : nat) :
  (forall r, In r rows -> p r = false) -> DB.first_from i p rows = None.
Proof.
  revert i. induction rows as [| r rs IH]; intros i H; simpl; [reflexivity |].
  rewrite (H r) by (left; reflexivity).
  apply IH. intros r' Hr'. apply H. now right.
Qed.

Lemma first_from_some (p : AICache -> bool) (rows : list AICache) (i j : nat) row :
  DB.first_from i p rows = Some (j, row) ->
  (i <= j)%nat /\ rows !! (j - i)%nat = Some row /\ p row = true.
Proof.
  revert i. induction rows as [| r rs IH]; intros i; simpl; [discriminate |].
  destruct (p r) eqn:Hp.
  - intros H. inversion H; subst. rewrite Nat.sub_diag. auto.
  - intros H. apply IH in H as (Hle & Hl & Hrow).
    split; [lia |]. split; [| exact Hrow].
    replace (j - i)%nat with (S (j - S i)) by lia. exact Hl.
Qed.

Lemma all_expired_no_valid_row (key : string) (t : Z) (rows : list AICache) :
  all_expired key t rows ->
  DB.first_from O (fun r => String.eqb (request_hash r) key && (t <? expires_at r)) rows
  = None.
Proof.
  intros H. apply first_from_none. intros r Hr.
  destruct (String.eqb_spec (request_hash r) key) as [He | ]; [| reflexivity].
  simpl. specialize (H r Hr He).
  destruct (Z.ltb_spec t (expires_at r)); [lia | reflexivity].
Qed.

End StoreFacts.

(** ** Facts about enhanced_cache.py *)

Ltac unfold_m :=
  unfold bind, try_except, ret, raise, tell, utcnow, load_json,
    DB.select_first, DB.commit_update, DB.commit_add, DB.rollback in *.

Module EnhancedFacts.
Import StoreFacts EnhancedCache.

Section WithRuntime.

Variable rt : Runtime.

(** The lookup in the persistent tier never raises and changes nothing but
    the log. *)
Lemma db_lookup_frame (key : string) (w : World) :
  exists r w',
    _get_from_db_cache key w = (Returned r, w') /\
    env w' = env w /\ redis w' = redis w /\
    ai_cache w' = ai_cache w /\ calls w' = calls w.
Proof.
  unfold _get_from_db_cache. unfold_m.
  destruct (db_up (env w)).
  - destruct (DB.first_from _ _ _) as [[i row] |]; eexists _, _; split;
      try reflexivity; auto.
  - eexists _, _; split; [reflexivity |]. simpl. auto.
Qed.

(** A key whose rows have all expired is a miss. *)
Lemma db_lookup_expired (key : string) (w : World) :
  all_expired key (time_now (env w)) (ai_cache w) ->
  (_get_from_db_cache key w).1 = Returned None.
Proof.
  intros H. unfold _get_from_db_cache. unfold_m.
  destruct (db_up (env w)); [| reflexivity].
  now rewrite (all_expired_no_valid_row _ _ _ H).
Qed.

(** The retry loop awaits [func] at least once and leaves both tiers and
    the log alone. *)
Lemma retry_loop_frame (n tries : nat) (start : Z) (func : Callable) args kw w :
  let r := retry_loop rt n tries start func args kw w in
  redis r.2 = redis w /\ ai_cache r.2 = ai_cache w /\ logged r.2 = logged w /\
  awaited func w r.2.
Proof.
  revert tries w. induction n as [| n IH]; intros tries w; simpl.
  - unfold invoke. destruct (body func args kw (env w)) as [[r | e] v]; simpl;
      (repeat split; [exists []; reflexivity]).
  - unfold invoke. destruct (body func args kw (env w)) as [[r | e] v]; simpl.
    + repeat split. exists []; reflexivity.
    + destruct (retriable e && negb (giveup e)
                && negb (max_time <=? time_now (env w) - start)).
      * match goal with |- context [retry_loop rt n ?t start func args kw ?w1] =>
          destruct (IH t w1) as (Hr & Ha & Hl & rest & Hc) end.
        simpl in *. rewrite Hr, Ha, Hl. repeat split.
        exists ((__name__ func :: rest)%list).
        rewrite Hc. rewrite <- app_assoc. reflexivity.
      * simpl. repeat split. exists []; reflexivity.
Qed.

Lemma execute_with_retry_frame (func : Callable) args kw w :
  let r := _execute_with_retry rt func args kw w in
  redis r.2 = redis w /\ ai_cache r.2 = ai_cache w /\ logged r.2 = logged w /\
  awaited func w r.2.
Proof. apply retry_loop_frame. Qed.

Lemma first_by_key_fresh (key : string) (rows : list AICache) :
  DB.first_from O (fun r => String.eqb (request_hash r) key) rows = None ->
  existsb (fun r => String.eqb (request_hash r) key) rows = false.
Proof.
  generalize O. induction rows as [| r rs IH]; intros i; simpl; [reflexivity |].
  destruct (String.eqb (request_hash r) key); [discriminate | apply IH].
Qed.

(** [_cache_result] raises only through the write to the volatile tier;
    whatever the database does, the write to it is swallowed. *)
Lemma cache_result_spec (self : EnhancedCache) (key : string) (result : value)
    (ttl : option Z) (w : World) :
  let ex := ttl_or ttl (default_ttl self) in
  (redis_up (env w) = true /\ 0 < ex /\
   exists w',
     _cache_result rt self key result ttl w = (Returned tt, w') /\
     env w' = env w /\ calls w' = calls w /\
     redis w' = <[key := (json_dumps rt result, time_now (env w) + ex)]> (redis w) /\
     (db_up (env w) = true ->
        ai_cache w' = upsert key result (time_now (env w) + ex) (ai_cache w) /\
        logged w' = logged w) /\
     (db_up (env w) = false ->
        ai_cache w' = ai_cache w /\
        logged w' = (logged w ++
          [(ERROR, "Error caching result in database: could not connect to server")])%list))
  \/
  ((redis_up (env w) = false \/ ex <= 0) /\
   exists e, _cache_result rt self key result ttl w = (Raised e, w)).
Proof.
  intros ex.
  destruct (redis_up (env w)) eqn:Hup.
  2: { right. split; [left; reflexivity |]. eexists.
       unfold _cache_result, bind, Redis.set. rewrite Hup. reflexivity. }
  destruct (Z.leb_spec ex 0) as [Hle | Hlt].
  { right. split; [right; exact Hle |]. eexists.
    unfold _cache_result, bind, Redis.set. fold ex. rewrite Hup.
    destruct (Z.leb_spec ex 0); [reflexivity | lia]. }
  left. split; [reflexivity |]. split; [exact Hlt |].
  unfold _cache_result. fold ex. unfold bind at 1.
  rewrite (redis_set_ok _ _ _ _ Hup Hlt).
  unfold_m. simpl.
  destruct (db_up (env w)) eqn:Hdb; simpl.
  - unfold upsert.
    destruct (DB.first_from O _ (ai_cache w)) as [[i row] |] eqn:Hf; simpl.
    + rewrite Hdb. eexists; split; [reflexivity |]. simpl.
      repeat split; auto; discriminate.
    + rewrite Hdb. rewrite (first_by_key_fresh _ _ Hf).
      eexists; split; [reflexivity |]. simpl.
      repeat split; auto; discriminate.
  - eexists; split; [reflexivity |]. simpl.
    repeat split; auto; discriminate.
Qed.

(** A live, non-empty entry of the volatile tier is returned as it is
    read back; nothing is awaited and no store is touched. *)
Lemma redis_hit (self : EnhancedCache) (func : Callable) args ttl key kw w payload v :
  redis_up (env w) = true ->
  Redis.live (redis w) (time_now (env w)) key = Some payload ->
  payload <> EmptyString ->
  json_loads rt payload = Some v ->
  get_or_execute rt self func args ttl (Some key) false kw w
  = (Returned v, log DEBUG ("Redis cache hit for " +:+ key) w).
Proof.
  intros Hup Hlive Hne Hload. unfold get_or_execute. simpl.
  unfold bind at 1. rewrite (redis_get_up _ _ Hup), Hlive. simpl.
  destruct (String.eqb_spec payload EmptyString) as [He | _]; [contradiction |].
  simpl. unfold_m. now rewrite Hload.
Qed.

(** The shape of a call that is a miss in both tiers. *)
Lemma full_miss (self : EnhancedCache) (func : Callable) args ttl key kw w
    cached db_result w1 :
  Redis.get key w = (Returned cached, w) ->
  bytes_truthy cached = false ->
  _get_from_db_cache key w = (Returned db_result, w1) ->
  option_truthy db_result = false ->
  get_or_execute rt self func args ttl (Some key) false kw w
  = (do result <- _execute_with_retry rt func args kw;
     do_ _cache_result rt self key result ttl;
     ret result)
      (log DEBUG ("Cache miss for " +:+ key +:+ ", executing function with retry") w1).
Proof.
  intros Hget Hc Hdb Hd. unfold get_or_execute. simpl.
  unfold bind at 1. rewrite Hget, Hc.
  unfold bind at 1. rewrite Hdb, Hd.
  reflexivity.
Qed.

(** A call that returned after awaiting its function has left the result
    in the volatile tier, to expire [ttl or default_ttl] later. *)
Lemma miss_then_cached (self : EnhancedCache) (func : Callable) args ttl key kw w0 w1 V :
  get_or_execute rt self func args ttl (Some key) false kw w0 = (Returned V, w1) ->
  calls w1 <> calls w0 ->
  redis w1 !! key
  = Some (json_dumps rt V, time_now (env w1) + ttl_or ttl (default_ttl self)).
Proof.
  intros Hret Hcalls. unfold get_or_execute in Hret. simpl in Hret.
  unfold bind at 1 in Hret.
  destruct (Redis.get key w0) as [[cached | e] wa] eqn:Hget; [| discriminate].
  apply redis_get_world in Hget as ->.
  destruct (bytes_truthy cached).
  { exfalso. unfold_m. destruct (json_loads rt _); inversion Hret; subst.
    now apply Hcalls. }
  unfold bind at 1 in Hret.
  destruct (db_lookup_frame key w0) as (r & wb & Hdb & _ & _ & _ & Hcb).
  rewrite Hdb in Hret.
  destruct (option_truthy r).
  { exfalso. unfold bind at 1 in Hret. unfold tell at 1 in Hret.
    unfold bind at 1 in Hret.
    destruct (Redis.set _ _ _ _) as [[u | e] wc] eqn:Hset; [| discriminate].
    apply redis_set_returned in Hset as (_ & _ & ->).
    unfold ret in Hret. inversion Hret; subst. simpl in Hcalls. now apply Hcalls. }
  unfold bind at 1 in Hret. unfold tell at 1 in Hret.
  unfold bind at 1 in Hret.
  destruct (_execute_with_retry rt func args kw _) as [[result | e] wd]; [| discriminate].
  unfold bind at 1 in Hret.
  destruct (cache_result_spec self key result ttl wd)
    as [(_ & _ & we & Hcr & Henv & _ & Hredis & _) | (_ & e & Hcr)];
    rewrite Hcr in Hret; [| discriminate].
  unfold ret in Hret. inversion Hret; subst.
  rewrite Hredis, Henv. apply lookup_insert_eq.
Qed.

(** While the entry lives, every call on the key is a hit. *)
Lemma served_from_redis (self : EnhancedCache) (key : string) (V : value)
    (expiry : Z) (reqs : list request) (w : World) :
  json_loads rt (json_dumps rt V) = Some V ->
  json_dumps rt V <> EmptyString ->
  redis w !! key = Some (json_dumps rt V, expiry) ->
  Forall (before_expiry expiry) reqs ->
  let r := serve (fun f a t k => get_or_execute rt self f a t (Some key) false k) reqs w in
  r.1 = map (fun _ => Returned V) reqs /\
  calls r.2 = calls w /\ redis r.2 = redis w /\ ai_cache r.2 = ai_cache w.
Proof.
  intros Hload Hne. revert w.
  induction reqs as [| q qs IH]; intros w Hentry Hall; [simpl; auto |].
  cbn [serve]. inversion Hall as [| ? ? [Hup Ht] Hrest]; subst.
  rewrite (redis_hit self (req_func q) (req_args q) (req_ttl q) key (req_kwargs q)
             (set_env (req_env q) w) (json_dumps rt V) V); try assumption.
  2: { simpl. unfold Redis.live. rewrite Hentry.
       destruct (Z.ltb_spec (time_now (req_env q)) expiry); [reflexivity | lia]. }
  match goal with |- context [serve ?g qs ?w1] =>
    specialize (IH w1 Hentry Hrest); destruct (serve g qs w1) as [rs w2] end.
  simpl in *. destruct IH as (-> & -> & -> & ->). auto.
Qed.

(** A key with no entry in the volatile tier and only expired rows in the
    persistent tier: the function is awaited. *)
Lemma expired_is_miss (self : EnhancedCache) (func : Callable) args ttl key
    (bypass_cache : bool) kw w :
  Redis.get key w = (Returned None, w) ->
  all_expired key (time_now (env w)) (ai_cache w) ->
  awaited func w (get_or_execute rt self func args ttl (Some key) bypass_cache kw w).2.
Proof.
  intros Hget Hexp. destruct bypass_cache.
  { apply execute_with_retry_frame. }
  destruct (db_lookup_frame key w) as (r & w1 & Hdb & _ & _ & _ & Hc1).
  assert (r = None) as ->.
  { pose proof (db_lookup_expired key w Hexp) as H. rewrite Hdb in H.
    simpl in H. congruence. }
  rewrite (full_miss self func args ttl key kw w None None w1 Hget eq_refl Hdb eq_refl).
  unfold bind at 1.
  match goal with |- context [_execute_with_retry rt func args kw ?w2] =>
    destruct (execute_with_retry_frame func args kw w2) as (_ & _ & _ & rest & Hc);
    destruct (_execute_with_retry rt func args kw w2) as [[result | e] wd] end;
    simpl in Hc; rewrite Hc1 in Hc.
  - unfold bind at 1.
    destruct (cache_result_spec self key result ttl wd)
      as [(_ & _ & we & Hcr & _ & Hcw & _) | (_ & e & Hcr)]; rewrite Hcr; simpl;
      exists rest; congruence.
  - exists rest. exact Hc.
Qed.

End WithRuntime.
End EnhancedFacts.

(** ** Facts about cache.py *)

Module FluxFacts.
Import StoreFacts FluxAICache.

Section WithRuntime.

Variable rt : Runtime.

Lemma flux_db_lookup_frame (key : string) (w : World) :
  exists r w',
    _get_from_db_cache key w = (Returned r, w') /\
    env w' = env w /\ redis w' = redis w /\
    ai_cache w' = ai_cache w /\ calls w' = calls w.
Proof.
  unfold _get_from_db_cache. unfold_m.
  destruct (db_up (env w)).
  - destruct (DB.first_from _ _ _) as [[i row] |]; eexists _, _; split;
      try reflexivity; auto.
  - eexists _, _; split; [reflexivity |]. simpl. auto.
Qed.

Lemma flux_db_lookup_expired (key : string) (w : World) :
  all_expired key (time_now (env w)) (ai_cache w) ->
  (_get_from_db_cache key w).1 = Returned None.
Proof.
  intros H. unfold _get_from_db_cache. unfold_m.
  destruct (db_up (env w)); [| reflexivity].
  now rewrite (all_expired_no_valid_row _ _ _ H).
Qed.

Lemma invoke_frame (func : Callable) args kw w :
  let r := invoke func args kw w in
  redis r.2 = redis w /\ ai_cache r.2 = ai_cache w /\ logged r.2 = logged w /\
  awaited func w r.2.
Proof.
  unfold invoke. destruct (body func args kw (env w)) as [r v]. simpl.
  repeat split. exists []. reflexivity.
Qed.

(** [_cache_result] of cache.py always inserts: when the table already has
    a row for the key the insert is refused and the refusal swallowed, so
    the row stays as it was. *)
Lemma flux_cache_result_spec (self : FluxAICache) (key : string) (result : value)
    (ttl : option Z) (w : World) :
  let ex := ttl_or ttl (default_ttl self) in
  let present := existsb (fun r => String.eqb (request_hash r) key) (ai_cache w) in
  (redis_up (env w) = true /\ 0 < ex /\
   exists w',
     _cache_result rt self key result ttl w = (Returned tt, w') /\
     env w' = env w /\ calls w' = calls w /\
     redis w' = <[key := (json_dumps rt result, time_now (env w) + ex)]> (redis w) /\
     (db_up (env w) = true -> present = false ->
        ai_cache w' = (ai_cache w ++ [mkAICache key result (time_now (env w) + ex)])%list /\
        logged w' = logged w) /\
     (db_up (env w) = true -> present = true ->
        ai_cache w' = ai_cache w /\
        logged w' = (logged w ++
          [(ERROR, "Error caching result in database: duplicate key value violates unique constraint")])%list) /\
     (db_up (env w) = false ->
        ai_cache w' = ai_cache w /\
        logged w' = (logged w ++
          [(ERROR, "Error caching result in database: could not connect to server")])%list))
  \/
  ((redis_up (env w) = false \/ ex <= 0) /\
   exists e, _cache_result rt self key result ttl w = (Raised e, w)).
Proof.
  intros ex present.
  destruct (redis_up (env w)) eqn:Hup.
  2: { right. split; [left; reflexivity |]. eexists.
       unfold _cache_result, bind, Redis.set. rewrite Hup. reflexivity. }
  destruct (Z.leb_spec ex 0) as [Hle | Hlt].
  { right. split; [right; exact Hle |]. eexists.
    unfold _cache_result, bind, Redis.set. fold ex. rewrite Hup.
    destruct (Z.leb_spec ex 0); [reflexivity | lia]. }
  left. split; [reflexivity |]. split; [exact Hlt |].
  unfold _cache_result. fold ex. unfold bind at 1.
  rewrite (redis_set_ok _ _ _ _ Hup Hlt).
  unfold_m. simpl. fold present.
  destruct (db_up (env w)) eqn:Hdb; simpl.
  - destruct present eqn:Hp; eexists; (split; [reflexivity |]); simpl;
      repeat split; auto; discriminate.
  - eexists; split; [reflexivity |]. simpl.
    repeat split; auto; discriminate.
Qed.

Lemma flux_redis_hit (self : FluxAICache) (func : Callable) args ttl key kw w payload v :
  redis_up (env w) = true ->
  Redis.live (redis w) (time_now (env w)) key = Some payload ->
  payload <> EmptyString ->
  json_loads rt payload = Some v ->
  get_or_execute rt self func args ttl (Some key) kw w
  = (Returned v, log DEBUG ("Redis cache hit for " +:+ key) w).
Proof.
  intros Hup Hlive Hne Hload. unfold get_or_execute. simpl.
  unfold bind at 1. rewrite (redis_get_up _ _ Hup), Hlive. simpl.
  destruct (String.eqb_spec payload EmptyString) as [He | _]; [contradiction |].
  simpl. unfold_m. now rewrite Hload.
Qed.

Lemma flux_full_miss (self : FluxAICache) (func : Callable) args ttl key kw w
    cached db_result w1 :
  Redis.get key w = (Returned cached, w) ->
  bytes_truthy cached = false ->
  _get_from_db_cache key w = (Returned db_result, w1) ->
  option_truthy db_result = false ->
  get_or_execute rt self func args ttl (Some key) kw w
  = (do result <- invoke func args kw;
     do_ _cache_result rt self key result ttl;
     ret result)
      (log DEBUG ("Cache miss for " +:+ key +:+ ", executing function") w1).
Proof.
  intros Hget Hc Hdb Hd. unfold get_or_execute. simpl.
  unfold bind at 1. rewrite Hget, Hc.
  unfold bind at 1. rewrite Hdb, Hd.
  reflexivity.
Qed.

Lemma flux_miss_then_cached (self : FluxAICache) (func : Callable) args ttl key kw w0 w1 V :
  get_or_execute rt self func args ttl (Some key) kw w0 = (Returned V, w1) ->
  calls w1 <> calls w0 ->
  redis w1 !! key
  = Some (json_dumps rt V, time_now (env w1) + ttl_or ttl (default_ttl self)).
Proof.
  intros Hret Hcalls. unfold get_or_execute in Hret. simpl in Hret.
  unfold bind at 1 in Hret.
  destruct (Redis.get key w0) as [[cached | e] wa] eqn:Hget; [| discriminate].
  apply redis_get_world in Hget as ->.
  destruct (bytes_truthy cached).
  { exfalso. unfold_m. destruct (json_loads rt _); inversion Hret; subst.
    now apply Hcalls. }
  unfold bind at 1 in Hret.
  destruct (flux_db_lookup_frame key w0) as (r & wb & Hdb & _ & _ & _ & Hcb).
  rewrite Hdb in Hret.
  destruct (option_truthy r).
  { exfalso. unfold bind at 1 in Hret. unfold tell at 1 in Hret.
    unfold bind at 1 in Hret.
    destruct (Redis.set _ _ _ _) as [[u | e] wc] eqn:Hset; [| discriminate].
    apply redis_set_returned in Hset as (_ & _ & ->).
    unfold ret in Hret. inversion Hret; subst. simpl in Hcalls. now apply Hcalls. }
  unfold bind at 1 in Hret. unfold tell at 1 in Hret.
  unfold bind at 1 in Hret.
  destruct (invoke func args kw _) as [[result | e] wd]; [| discriminate].
  unfold bind at 1 in Hret.
  destruct (flux_cache_result_spec self key result ttl wd)
    as [(_ & _ & we & Hcr & Henv & _ & Hredis & _) | (_ & e & Hcr)];
    rewrite Hcr in Hret; [| discriminate].
  unfold ret in Hret. inversion Hret; subst.
  rewrite Hredis, Henv. apply lookup_insert_eq.
Qed.

Lemma flux_served_from_redis (self : FluxAICache) (key : string) (V : value)
    (expiry : Z) (reqs : list request) (w : World) :
  json_loads rt (json_dumps rt V) = Some V ->
  json_dumps rt V <> EmptyString ->
  redis w !! key = Some (json_dumps rt V, expiry) ->
  Forall (before_expiry expiry) reqs ->
  let r := serve (fun f a t k => get_or_execute rt self f a t (Some key) k) reqs w in
  r.1 = map (fun _ => Returned V) reqs /\
  calls r.2 = calls w /\ redis r.2 = redis w /\ ai_cache r.2 = ai_cache w.
Proof.
  intros Hload Hne. revert w.
  induction reqs as [| q qs IH]; intros w Hentry Hall; [simpl; auto |].
  cbn [serve]. inversion Hall as [| ? ? [Hup Ht] Hrest]; subst.
  rewrite (flux_redis_hit self (req_func q) (req_args q) (req_ttl q) key (req_kwargs q)
             (set_env (req_env q) w) (json_dumps rt V) V); try assumption.
  2: { simpl. unfold Redis.live. rewrite Hentry.
       destruct (Z.ltb_spec (time_now (req_env q)) expiry); [reflexivity | lia]. }
  match goal with |- context [serve ?g qs ?w1] =>
    specialize (IH w1 Hentry Hrest); destruct (serve g qs w1) as [rs w2] end.
  simpl in *. destruct IH as (-> & -> & -> & ->). auto.
Qed.

Lemma flux_expired_is_miss (self : FluxAICache) (func : Callable) args ttl key kw w :
  Redis.get key w = (Returned None, w) ->
  all_expired key (time_now (env w)) (ai_cache w) ->
  awaited func w (get_or_execute rt self func args ttl (Some key) kw w).2.
Proof.
  intros Hget Hexp.
  destruct (flux_db_lookup_frame key w) as (r & w1 & Hdb & _ & _ & _ & Hc1).
  assert (r = None) as ->.
  { pose proof (flux_db_lookup_expired key w Hexp) as H. rewrite Hdb in H.
    simpl in H. congruence. }
  rewrite (flux_full_miss self func args ttl key kw w None None w1 Hget eq_refl Hdb eq_refl).
  unfold bind at 1.
  match goal with |- context [invoke func args kw ?w2] =>
    destruct (invoke_frame func args kw w2) as (_ & _ & _ & rest & Hc);
    destruct (invoke func args kw w2) as [[result | e] wd] end;
    simpl in Hc; rewrite Hc1 in Hc.
  - unfold bind at 1.
    destruct (flux_cache_result_spec self key result ttl wd)
      as [(_ & _ & we & Hcr & _ & Hcw & _) | (_ & e & Hcr)]; rewrite Hcr; simpl;
      exists rest; congruence.
  - exists rest. exact Hc.
Qed.

End WithRuntime.
End FluxFacts.

(** ** Two-tier cache *)

Module CacheClaims.
Import StoreFacts.

(** C6, refuted.  Both tiers hold a valid entry for the key; a call with
    bypass_cache = true awaits the function and returns its fresh result,
    but writes it to neither tier: both still hold the old payload, and
    the next plain call on the key returns the old payload. *)
Lemma C6_counterexample :
  let f := Samples.answering "list_files" Samples.new_answer in
  let r := EnhancedCache.get_or_execute Samples.rt EnhancedCache.init f [] None
             (Some "k") true [] Samples.world_cached in
  r.1 = Returned Samples.new_answer /\
  calls r.2 = ["list_files"] /\
  redis r.2 !! "k" = Some (Samples.dumps Samples.old_answer, 4000) /\
  ai_cache r.2 = [mkAICache "k" Samples.old_answer 4000] /\
  (EnhancedCache.get_or_execute Samples.rt EnhancedCache.init f [] None
     (Some "k") false [] r.2).1 = Returned Samples.old_answer.
Proof. vm_compute. repeat split. Qed.

(** C6, amended.  A call with bypass_cache = true is the retried execution
    of the function and nothing else: the function is awaited whatever the
    tiers hold, its result or error is what the call gives back, and
    neither tier is read or written. *)
Theorem C6_bypass_executes_without_caching (rt : Runtime)
    (self : EnhancedCache.EnhancedCache) (func : Callable) (args : list value)
    (ttl : option Z) (cache_key : option string) (kw : kwargs) (w : World) :
  let r := EnhancedCache.get_or_execute rt self func args ttl cache_key true kw w in
  r = EnhancedCache._execute_with_retry rt func args kw w /\
  awaited func w r.2 /\
  redis r.2 = redis w /\
  ai_cache r.2 = ai_cache w.
Proof.
  intros r. subst r. unfold EnhancedCache.get_or_execute.
  destruct (EnhancedFacts.execute_with_retry_frame rt func args kw w)
    as (Hr & Ha & _ & Hc).
  auto.
Qed.

(** C2.  Once a call of get_or_execute on the key K has awaited its function,
    got V and returned it (so V is cached), every later call on K made
    with the volatile store up and before the time to live has elapsed
    returns V, whatever function it wraps, and awaits nothing.  V is a
    value that json reads back as it was written.  Stated for
    enhanced_cache.py (lookups, bypass_cache = false) and for cache.py. *)
Theorem C2_cached_value_served_until_ttl (rt : Runtime) (key : string) (V : value)
    (ttl : option Z) (func : Callable) (args : list value) (kw : kwargs)
    (reqs : list request) :
  json_loads rt (json_dumps rt V) = Some V ->
  json_dumps rt V <> EmptyString ->
  (forall (self : EnhancedCache.EnhancedCache) (w0 w1 : World),
     EnhancedCache.get_or_execute rt self func args ttl (Some key) false kw w0
     = (Returned V, w1) ->
     calls w1 <> calls w0 ->
     Forall (before_expiry
               (time_now (env w1) + ttl_or ttl (EnhancedCache.default_ttl self))) reqs ->
     let r := serve (fun f a t k =>
                EnhancedCache.get_or_execute rt self f a t (Some key) false k) reqs w1 in
     r.1 = map (fun _ => Returned V) reqs /\ calls r.2 = calls w1) /\
  (forall (self : FluxAICache.FluxAICache) (w0 w1 : World),
     FluxAICache.get_or_execute rt self func args ttl (Some key) kw w0
     = (Returned V, w1) ->
     calls w1 <> calls w0 ->
     Forall (before_expiry
               (time_now (env w1) + ttl_or ttl (FluxAICache.default_ttl self))) reqs ->
     let r := serve (fun f a t k =>
                FluxAICache.get_or_execute rt self f a t (Some key) k) reqs w1 in
     r.1 = map (fun _ => Returned V) reqs /\ calls r.2 = calls w1).
Proof.
  intros Hload Hne. split.
  - intros self w0 w1 Hret Hcalls Hall.
    pose proof (EnhancedFacts.miss_then_cached rt self func args ttl key kw w0 w1 V
                  Hret Hcalls) as Hentry.
    destruct (EnhancedFacts.served_from_redis rt self key V _ reqs w1
                Hload Hne Hentry Hall) as (H1 & H2 & _).
    auto.
  - intros self w0 w1 Hret Hcalls Hall.
    pose proof (FluxFacts.flux_miss_then_cached rt self func args ttl key kw w0 w1 V
                  Hret Hcalls) as Hentry.
    destruct (FluxFacts.flux_served_from_redis rt self key V _ reqs w1
                Hload Hne Hentry Hall) as (H1 & H2 & _).
    auto.
Qed.

(** The instance of C2 on an empty cache: a first call caches the answer,
    two later calls with other functions get it back. *)
Lemma C2_cached_value_witness :
  json_loads Samples.rt (json_dumps Samples.rt Samples.new_answer)
  = Some Samples.new_answer /\
  json_dumps Samples.rt Samples.new_answer <> EmptyString /\
  (serve (fun f a t k =>
            EnhancedCache.get_or_execute Samples.rt EnhancedCache.init f a t (Some "k") false k)
     Samples.later_calls Samples.world_after_miss).1
  = [Returned Samples.new_answer; Returned Samples.new_answer] /\
  (serve (fun f a t k =>
            FluxAICache.get_or_execute Samples.rt FluxAICache.init f a t (Some "k") k)
     Samples.later_calls Samples.flux_world_after_miss).1
  = [Returned Samples.new_answer; Returned Samples.new_answer].
Proof.
  assert (Hload : json_loads Samples.rt (json_dumps Samples.rt Samples.new_answer)
                  = Some Samples.new_answer) by reflexivity.
  assert (Hne : json_dumps Samples.rt Samples.new_answer <> EmptyString)
    by (vm_compute; discriminate).
  pose proof (C2_cached_value_served_until_ttl Samples.rt "k" Samples.new_answer None
    (Samples.answering "list_files" Samples.new_answer) [] [] Samples.later_calls
    Hload Hne) as [He Hf].
  split; [exact Hload |]. split; [exact Hne |]. split.
  - refine (proj1 (He EnhancedCache.init Samples.world0 Samples.world_after_miss
                     eq_refl _ _)).
    + vm_compute. discriminate.
    + repeat constructor.
  - refine (proj1 (Hf FluxAICache.init Samples.world0 Samples.flux_world_after_miss
                     eq_refl _ _)).
    + vm_compute. discriminate.
    + repeat constructor.
Defined.

(** C5.  When the volatile tier has no entry for the key and every row of
    the persistent tier for the key has expires_at earlier than the
    current time, the lookup in the persistent tier is a miss and
    get_or_execute awaits the wrapped function.  Stated for
    enhanced_cache.py and for cache.py. *)
Theorem C5_expired_entry_is_a_miss (rt : Runtime) (key : string) (func : Callable)
    (args : list value) (ttl : option Z) (kw : kwargs) (w : World) :
  Redis.get key w = (Returned None, w) ->
  all_expired key (time_now (env w)) (ai_cache w) ->
  (forall (self : EnhancedCache.EnhancedCache) (bypass_cache : bool),
     (EnhancedCache._get_from_db_cache key w).1 = Returned None /\
     awaited func w
       (EnhancedCache.get_or_execute rt self func args ttl (Some key) bypass_cache kw w).2) /\
  (forall (self : FluxAICache.FluxAICache),
     (FluxAICache._get_from_db_cache key w).1 = Returned None /\
     awaited func w
       (FluxAICache.get_or_execute rt self func args ttl (Some key) kw w).2).
Proof.
  intros Hget Hexp. split.
  - intros self bypass_cache. split.
    + now apply EnhancedFacts.db_lookup_expired.
    + now apply EnhancedFacts.expired_is_miss.
  - intros self. split.
    + now apply FluxFacts.flux_db_lookup_expired.
    + now apply FluxFacts.flux_expired_is_miss.
Qed.

Lemma sample_row_expired :
  all_expired "k" (time_now (env Samples.world_stale)) (ai_cache Samples.world_stale).
Proof.
  intros r [<- | []] _. reflexivity.
Defined.

(** The instance of C5 on a table whose row for "k" expired at 900, read
    at time 1000. *)
Lemma C5_expired_entry_witness :
  Redis.get "k" Samples.world_stale = (Returned None, Samples.world_stale) /\
  all_expired "k" (time_now (env Samples.world_stale)) (ai_cache Samples.world_stale) /\
  awaited (Samples.answering "list_files" Samples.new_answer) Samples.world_stale
    (EnhancedCache.get_or_execute Samples.rt EnhancedCache.init
       (Samples.answering "list_files" Samples.new_answer) [] None (Some "k") false []
       Samples.world_stale).2 /\
  awaited (Samples.answering "list_files" Samples.new_answer) Samples.world_stale
    (FluxAICache.get_or_execute Samples.rt FluxAICache.init
       (Samples.answering "list_files" Samples.new_answer) [] None (Some "k") []
       Samples.world_stale).2.
Proof.
  pose proof (C5_expired_entry_is_a_miss Samples.rt "k"
    (Samples.answering "list_files" Samples.new_answer) [] None []
    Samples.world_stale eq_refl sample_row_expired) as [He Hf].
  split; [reflexivity |]. split; [exact sample_row_expired |].
  split; [exact (proj2 (He EnhancedCache.init false)) |].
  exact (proj2 (Hf FluxAICache.init)).
Defined.





(** Tables with one row for the key: [upsert] rewrites that row in place. *)
Lemma upsert_row_found (key : string) (rows : list AICache) (row0 row' : AICache) (i : nat) :
  rows_of key rows = [row0] ->
  request_hash row' = key ->
  exists j,
    DB.first_from i (fun r => String.eqb (request_hash r) key) rows = Some ((i + j)%nat, row0) /\
    rows_of key (<[j := row']> rows) = [row'] /\
    length (<[j := row']> rows) = length rows.
Proof.
  intros Hrows Hkey. subst key. revert i Hrows.
  induction rows as [| r rs IH]; intros i Hrows; [discriminate |].
  unfold rows_of in *. cbn [List.filter DB.first_from] in *.
  destruct (String.eqb (request_hash r) (request_hash row')) eqn:Hr.
  - inversion Hrows as [[Hr0 Hrs]]. subst r. exists O.
    rewrite Nat.add_0_r. split; [reflexivity |].
    split; [| apply length_insert].
    cbn. now rewrite String.eqb_refl, Hrs.
  - destruct (IH (S i) Hrows) as (j & Hf & Hro & _).
    exists (S j).
    replace (i + S j)%nat with (S i + j)%nat by lia.
    split; [exact Hf |]. split; [| apply length_insert].
    cbn. rewrite Hr. exact Hro.
Qed.

(** The write of enhanced_cache.py on a table that has one row for the key:
    the row takes the new payload and expiry, and stays the only one. *)
Lemma enhanced_write_updates_in_place (key : string) (V : value) (expiry : Z)
    (rows : list AICache) (row0 : AICache) :
  rows_of key rows = [row0] ->
  rows_of key (upsert key V expiry rows) = [mkAICache key V expiry] /\
  length (upsert key V expiry rows) = length rows.
Proof.
  intros Hrows.
  assert (Hk : request_hash row0 = key).
  { assert (Hin : In row0 (rows_of key rows)) by (rewrite Hrows; now left).
    unfold rows_of in Hin. apply filter_In in Hin as [_ Hin].
    now apply String.eqb_eq in Hin. }
  destruct (upsert_row_found key rows row0 (mkAICache key V expiry) O Hrows eq_refl)
    as (j & Hf & Hro & Hlen).
  unfold upsert. rewrite Hf, Hk. simpl. auto.
Qed.

(** The write of cache.py on a table that has a row for the key: the table
    is left as it was. *)
Lemma flux_write_keeps_existing_row (rt : Runtime) (self : FluxAICache.FluxAICache)
    (key : string) (V : value) (ttl : option Z) (w : World) :
  existsb (fun r => String.eqb (request_hash r) key) (ai_cache w) = true ->
  ai_cache (FluxAICache._cache_result rt self key V ttl w).2 = ai_cache w.
Proof.
  intros Hpresent.
  destruct (FluxFacts.flux_cache_result_spec rt self key V ttl w)
    as [(_ & _ & w' & Hcr & _ & _ & _ & _ & Hdup & Hdown) | (_ & e & Hcr)];
    rewrite Hcr; simpl; [| reflexivity].
  destruct (db_up (env w)).
  - exact (proj1 (Hdup eq_refl Hpresent)).
  - exact (proj1 (Hdown eq_refl)).
Qed.

(** C8, on the failing input.  The table has one row for "k", expired.  A
    call through cache.py misses, awaits the function and writes: the
    insert is refused by the UNIQUE constraint, the refusal is logged and
    swallowed, and the row keeps its old payload and its old expires_at.
    The same call through enhanced_cache.py updates the row in place. *)
Lemma C8_flux_write_leaves_stale_row :
  let f := Samples.answering "list_files" Samples.new_answer in
  let r := FluxAICache.get_or_execute Samples.rt FluxAICache.init f [] None
             (Some "k") [] Samples.world_stale in
  let r' := EnhancedCache.get_or_execute Samples.rt EnhancedCache.init f [] None
              (Some "k") false [] Samples.world_stale in
  ai_cache Samples.world_stale = [mkAICache "k" Samples.old_answer 900] /\
  r.1 = Returned Samples.new_answer /\
  ai_cache r.2 = [mkAICache "k" Samples.old_answer 900] /\
  logged r.2 =
    [(DEBUG, "Cache miss for k, executing function");
     (ERROR, "Error caching result in database: duplicate key value violates unique constraint")] /\
  r'.1 = Returned Samples.new_answer /\
  ai_cache r'.2 = [mkAICache "k" Samples.new_answer 4601].
Proof. vm_compute. repeat split. Qed.

End CacheClaims.

(** * Further properties *)

(** ** Circuit breaker: states, runs of calls, decorated methods *)

Module BreakerExtras.
Import Breaker BreakerFacts.

(** The breaker a call leaves behind, by the state it finds and by what
    the function does. *)
Lemma call_breaker_after (self : CircuitBreaker) (func : Callable) args kw w :
  (call self func args kw w).1.2 =
  if state_eqb (state self) OPEN
     && negb (last_failure_time self + recovery_timeout self <? time_now (env w))
  then self
  else
    let self0 := if state_eqb (state self) OPEN then set_state HALF_OPEN self else self in
    match body func args kw (env w) with
    | (Returned _, _) =>
        if state_eqb (state self0) HALF_OPEN
        then set_failure_count 0 (set_state CLOSED self0)
        else self0
    | (Raised _, v) => after_failure self0 (time_now v)
    end.
Proof.
  assert (Htry : forall (s0 : CircuitBreaker) (w0 : World), env w0 = env w ->
            (call_try s0 func args kw w0).1.2 =
            match body func args kw (env w) with
            | (Returned _, _) =>
                if state_eqb (state s0) HALF_OPEN
                then set_failure_count 0 (set_state CLOSED s0)
                else s0
            | (Raised _, v) => after_failure s0 (time_now v)
            end).
  { intros s0 w0 He. rewrite <- He.
    destruct (body func args kw (env w0)) as [[r | e] v] eqn:Hb.
    - rewrite (call_try_returned s0 _ _ _ _ _ _ (invoke_body _ _ _ _ _ _ Hb)).
      now destruct (state_eqb (state s0) HALF_OPEN).
    - rewrite (call_try_raised s0 _ _ _ _ _ _ Hb). cbv zeta.
      destruct (state_eqb _ OPEN);
        [apply BreakerClaims.use_fallback_breaker | reflexivity]. }
  unfold call.
  destruct (state_eqb (state self) OPEN) eqn:Hs; simpl.
  - destruct (last_failure_time self + recovery_timeout self <? time_now (env w)); simpl.
    + now apply Htry.
    + apply BreakerClaims.use_fallback_breaker.
  - now apply Htry.
Qed.






(** One call through a CLOSED breaker that stays below the threshold. *)
Lemma closed_call_below_threshold (self : CircuitBreaker) (q : request) (w : World) :
  state self = CLOSED ->
  failure_count self + (if fails q then 1 else 0) < failure_threshold self ->
  let r := call self (req_func q) (req_args q) (req_kwargs q) (set_env (req_env q) w) in
  r.1.1 = own_outcome q /\
  state r.1.2 = CLOSED /\
  failure_count r.1.2 = failure_count self + (if fails q then 1 else 0) /\
  failure_threshold r.1.2 = failure_threshold self /\
  calls r.2 = (calls w ++ [__name__ (req_func q)])%list.
Proof.
  intros Hs Hlt. unfold fails, own_outcome in *. unfold call. rewrite Hs. simpl.
  destruct (body (req_func q) (req_args q) (req_kwargs q) (req_env q))
    as [[r | e] v] eqn:Hb; simpl in *.
  - rewrite (call_try_returned self _ _ _ (set_env (req_env q) w) r _
               (invoke_body (req_func q) (req_args q) (req_kwargs q)
                  (set_env (req_env q) w) _ _ Hb)).
    rewrite Hs. simpl. repeat split; auto. lia.
  - rewrite (call_try_raised self _ _ _ (set_env (req_env q) w) e v Hb). cbv zeta.
    assert (Hst : state (after_failure self (time_now v)) = CLOSED).
    { unfold after_failure; simpl. rewrite Hs.
      destruct (Z.leb_spec (failure_threshold self) (failure_count self + 1));
        [lia | reflexivity]. }
    rewrite Hst. simpl. repeat split; auto.
    apply (call_try_raised_calls self (req_func q) (set_env (req_env q) w) v).
Qed.

(** X3.  Below the threshold the breaker is transparent and only counts:
    in a run of calls through a CLOSED breaker in which the failures so
    far stay below failure_threshold, every call gives back exactly what
    its function returned or raised, every function is awaited once, the
    breaker stays CLOSED, and failure_count grows by the number of
    failures, the successes in between resetting nothing. *)
Theorem failures_accumulate_below_threshold
    (reqs : list request) (self : CircuitBreaker) (w : World) :
  state self = CLOSED ->
  failure_count self + Z.of_nat (length (List.filter fails reqs)) < failure_threshold self ->
  (run_calls self reqs w).1.1 = map own_outcome reqs /\
  state (run_calls self reqs w).1.2 = CLOSED /\
  failure_count (run_calls self reqs w).1.2
    = failure_count self + Z.of_nat (length (List.filter fails reqs)) /\
  failure_threshold (run_calls self reqs w).1.2 = failure_threshold self /\
  calls (run_calls self reqs w).2
    = (calls w ++ map (fun q => __name__ (req_func q)) reqs)%list.
Proof.
  revert self w. induction reqs as [| q qs IH]; intros self w Hs Hlt.
  - simpl in *. rewrite app_nil_r. repeat split; auto. lia.
  - cbn [run_calls].
    assert (Hlen : Z.of_nat (length (List.filter fails (q :: qs)))
                   = (if fails q then 1 else 0) + Z.of_nat (length (List.filter fails qs))).
    { simpl. destruct (fails q); simpl; lia. }
    rewrite Hlen in *.
    destruct (closed_call_below_threshold self q w Hs) as (Hr & Hs1 & Hn1 & Ht1 & Hc1).
    { destruct (fails q); lia. }
    destruct (call self _ _ _ _) as [[r self1] w1]. simpl in *.
    destruct (IH self1 w1 Hs1) as (Hrs & Hs2 & Hn2 & Ht2 & Hc2).
    { rewrite Hn1, Ht1. lia. }
    destruct (run_calls self1 qs w1) as [[rs self2] w2]. simpl in *.
    subst r rs. repeat split; auto.
    + rewrite Hn2, Hn1. lia.
    + congruence.
    + rewrite Hc2, Hc1. now rewrite <- app_assoc.
Qed.

Lemma failures_accumulate_witness :
  state Samples.strained = CLOSED /\
  failure_count Samples.strained
    + Z.of_nat (length (List.filter fails Samples.mixed_calls))
    < failure_threshold Samples.strained /\
  (run_calls Samples.strained Samples.mixed_calls Samples.world0).1.1
    = map own_outcome Samples.mixed_calls /\
  failure_count (run_calls Samples.strained Samples.mixed_calls Samples.world0).1.2 = 4.
Proof.
  pose proof (failures_accumulate_below_threshold Samples.mixed_calls
    Samples.strained Samples.world0 eq_refl eq_refl) as (H1 & _ & H3 & _).
  split; [reflexivity |]. split; [reflexivity |]. split; [exact H1 | exact H3].
Defined.

Lemma run_calls_app (reqs1 reqs2 : list request) (self : CircuitBreaker) (w : World) :
  (run_calls self (reqs1 ++ reqs2) w).1.2
  = (run_calls (run_calls self reqs1 w).1.2 reqs2 (run_calls self reqs1 w).2).1.2.
Proof.
  revert self w. induction reqs1 as [| q qs IH]; intros self w; [reflexivity |].
  rewrite <- app_comm_cons. cbn [run_calls].
  destruct (call self _ _ _ _) as [[r self1] w1].
  specialize (IH self1 w1).
  destruct (run_calls self1 (qs ++ reqs2) w1) as [[rs self2] w2].
  destruct (run_calls self1 qs w1) as [[rs' self2'] w2']. simpl in *.
  exact IH.
Qed.

(** X4.  The failures that open the breaker need not be consecutive: when
    the failures of a run through a CLOSED breaker bring failure_count to
    one below failure_threshold, the next failing call opens the breaker,
    however many successful calls lay in between. *)
Theorem cumulative_failures_open
    (reqs : list request) (q : request) (self : CircuitBreaker) (w : World) :
  state self = CLOSED ->
  fails q = true ->
  failure_count self + Z.of_nat (length (List.filter fails reqs)) + 1
    = failure_threshold self ->
  state (run_calls self (reqs ++ [q]) w).1.2 = OPEN /\
  failure_count (run_calls self (reqs ++ [q]) w).1.2 = failure_threshold self.
Proof.
  intros Hs Hq Heq. rewrite run_calls_app.
  destruct (failures_accumulate_below_threshold reqs self w Hs)
    as (_ & Hs1 & Hn1 & Ht1 & _); [lia |].
  destruct (run_calls self reqs w) as [[rs self1] w1]. simpl in *.
  cbn [run_calls].
  pose proof (call_breaker_after self1 (req_func q) (req_args q) (req_kwargs q)
                (set_env (req_env q) w1)) as Hb.
  destruct (call self1 _ _ _ _) as [[r self2] w2]. simpl in *.
  rewrite Hb, Hs1. simpl.
  unfold fails, own_outcome in Hq.
  destruct (body (req_func q) (req_args q) (req_kwargs q) (req_env q))
    as [[r' | e] v]; [discriminate |].
  unfold after_failure; simpl. rewrite Hs1, Ht1, Hn1.
  destruct (Z.leb_spec (failure_threshold self)
              (failure_count self + Z.of_nat (length (List.filter fails reqs)) + 1));
    [split; [reflexivity | lia] | lia].
Qed.

Lemma cumulative_failures_witness :
  state Samples.strained = CLOSED /\
  fails (mkRequest (Samples.failing "get_file") [] [] None (mkEnv 1040 true true)) = true /\
  state (run_calls Samples.strained
           (Samples.mixed_calls ++
            [mkRequest (Samples.failing "get_file") [] [] None (mkEnv 1040 true true)])
           Samples.world0).1.2 = OPEN.
Proof.
  split; [reflexivity |]. split; [reflexivity |].
  exact (proj1 (cumulative_failures_open Samples.mixed_calls
    (mkRequest (Samples.failing "get_file") [] [] None (mkEnv 1040 true true))
    Samples.strained Samples.world0 eq_refl eq_refl eq_refl)).
Defined.

(** A decorated method called while the breaker is open and within its
    timeout: the fallback handler gets the instance as first argument. *)
Lemma call_method_open (breaker : CircuitBreaker) (client : value) (method : Callable)
    args kw w :
  state breaker = OPEN ->
  time_now (env w) - last_failure_time breaker <= recovery_timeout breaker ->
  FluxAIClient.call_method breaker client method args kw w
  = use_fallback breaker method (client :: args) kw w.
Proof.
  intros Hs Ht. unfold FluxAIClient.call_method, __call__.
  now apply call_open_within_timeout.
Qed.

(** X5.  While the breaker (with the default handler) is open, calling the
    decorated chat_completion on a client with messages given by keyword,
    as the services do, raises TypeError instead of returning the
    fallback: the instance is bound to the parameter messages of
    _fallback_chat_completion, which then gets messages twice.  With
    messages given positionally the fallback response is returned.  The
    remote function is not awaited either way. *)
Theorem open_breaker_chat_completion_by_keyword
    (breaker : CircuitBreaker) (client : value) (method : Callable)
    (args : list value) (kw : kwargs) (w : World) :
  state breaker = OPEN ->
  time_now (env w) - last_failure_time breaker <= recovery_timeout breaker ->
  fallback_handler breaker = Fallback.get_fallback_response ->
  __name__ method = "chat_completion" ->
  (FluxAIClient.call_method breaker client method args kw w).1.1
  = (if has_key "messages" kw
     then Raised (Fallback.type_error "_fallback_chat_completion")
     else (Fallback._fallback_chat_completion [client] [])) /\
  (FluxAIClient.call_method breaker client method args kw w).1.2 = breaker /\
  calls (FluxAIClient.call_method breaker client method args kw w).2 = calls w.
Proof.
  intros Hs Ht Hh Hname. rewrite (call_method_open _ _ _ _ _ _ Hs Ht).
  unfold use_fallback. rewrite Hh, Hname.
  unfold Fallback.get_fallback_response. simpl.
  unfold Fallback._fallback_chat_completion, Fallback.binds_leading.
  destruct (has_key "messages" kw); simpl; auto.
Qed.

Lemma open_breaker_chat_completion_witness :
  state Samples.tripped = OPEN /\
  (FluxAIClient.call_method Samples.tripped Samples.client
     (Samples.answering "chat_completion" Samples.new_answer) []
     [("messages", VList Samples.hello); ("mode", VNone)] Samples.world0).1.1
  = Raised (Fallback.type_error "_fallback_chat_completion").
Proof.
  split; [reflexivity |].
  assert (Ht : time_now (env Samples.world0) - last_failure_time Samples.tripped
               <= recovery_timeout Samples.tripped) by (vm_compute; discriminate).
  exact (proj1 (open_breaker_chat_completion_by_keyword Samples.tripped Samples.client
    (Samples.answering "chat_completion" Samples.new_answer) []
    [("messages", VList Samples.hello); ("mode", VNone)] Samples.world0
    eq_refl Ht eq_refl eq_refl)).
Defined.

Lemma keyword_for_bound_parameter (params : list string) (required n : nat)
    (args : list value) (kw : kwargs) (p : string) (i : nat) :
  Fallback.index_of p params = Some i -> (i < length args)%nat ->
  has_key p kw = true ->
  Fallback.binds_fixed params required args kw = false.
Proof.
  intros Hi Hlt Hk. unfold Fallback.binds_fixed.
  assert (Hf : forallb (fun q => match Fallback.index_of (fst q) params with
                                 | Some j => (length args <=? j)%nat
                                 | None => false
                                 end) kw = false).
  { unfold has_key in Hk. induction kw as [| q qs IH]; [discriminate |].
    simpl in *. destruct (String.eqb_spec (fst q) p) as [-> | Hne].
    - rewrite Hi. destruct (Nat.leb_spec (length args) i); [lia | reflexivity].
    - simpl in Hk. rewrite (IH Hk). apply andb_false_r. }
  rewrite Hf. rewrite andb_false_r. reflexivity.
Qed.

(** X6.  While the breaker (with the default handler) is open, calling the
    decorated upload_file on a client with file given by keyword, as the
    services do, raises TypeError instead of returning the fallback: the
    instance already fills the parameter file of _fallback_upload_file. *)
Theorem open_breaker_upload_file_by_keyword
    (breaker : CircuitBreaker) (client : value) (method : Callable)
    (args : list value) (kw : kwargs) (w : World) :
  state breaker = OPEN ->
  time_now (env w) - last_failure_time breaker <= recovery_timeout breaker ->
  fallback_handler breaker = Fallback.get_fallback_response ->
  __name__ method = "upload_file" ->
  has_key "file" kw = true ->
  (FluxAIClient.call_method breaker client method args kw w).1.1
  = Raised (Fallback.type_error "_fallback_upload_file") /\
  (FluxAIClient.call_method breaker client method args kw w).1.2 = breaker /\
  calls (FluxAIClient.call_method breaker client method args kw w).2 = calls w.
Proof.
  intros Hs Ht Hh Hname Hk. rewrite (call_method_open _ _ _ _ _ _ Hs Ht).
  unfold use_fallback. rewrite Hh, Hname.
  unfold Fallback.get_fallback_response. simpl.
  unfold Fallback._fallback_upload_file.
  rewrite (keyword_for_bound_parameter ["file"; "filename"; "tags"] 2 O
             (client :: args) kw "file" O eq_refl); simpl; auto; lia.
Qed.

Lemma open_breaker_upload_file_witness :
  state Samples.tripped = OPEN /\
  has_key "file" [("file", VNone); ("filename", VStr "a.pdf"); ("tags", VList [])] = true /\
  (FluxAIClient.call_method Samples.tripped Samples.client
     (Samples.answering "upload_file" Samples.new_answer) []
     [("file", VNone); ("filename", VStr "a.pdf"); ("tags", VList [])]
     Samples.world0).1.1
  = Raised (Fallback.type_error "_fallback_upload_file").
Proof.
  split; [reflexivity |]. split; [reflexivity |].
  assert (Ht : time_now (env Samples.world0) - last_failure_time Samples.tripped
               <= recovery_timeout Samples.tripped) by (vm_compute; discriminate).
  exact (proj1 (open_breaker_upload_file_by_keyword Samples.tripped Samples.client
    (Samples.answering "upload_file" Samples.new_answer) []
    [("file", VNone); ("filename", VStr "a.pdf"); ("tags", VList [])] Samples.world0
    eq_refl Ht eq_refl eq_refl eq_refl)).
Defined.

End BreakerExtras.

(** ** Fallback strategy table: what every response carries, when it raises *)

Module FallbackExtras.
Import Fallback.

(** X7.  Whatever get_fallback_response returns for a function name other
    than chat_completion is a dict whose success entry is False and whose
    message entry is a non-empty string. *)
Theorem fallback_marks_failure (function_name : string) (args : list value)
    (kw : kwargs) (w : World) (resp : value) :
  function_name <> "chat_completion" ->
  (get_fallback_response function_name args kw w).1 = Returned resp ->
  exists d msg,
    resp = VDict d /\
    dict_get "success" d = Some (VBool false) /\
    dict_get "message" d = Some (VStr msg) /\
    msg <> EmptyString.
Proof.
  intros Hname. unfold get_fallback_response.
  destruct (String.eqb_spec function_name "upload_file") as [_ | _].
  { unfold _fallback_upload_file. destruct (binds_fixed _ _ _ _); simpl;
      [| discriminate].
    intros H. inversion H. eexists _, _. repeat split. discriminate. }
  destruct (String.eqb_spec function_name "list_files") as [_ | _].
  { simpl. intros H. inversion H. eexists _, _. repeat split. discriminate. }
  destruct (String.eqb_spec function_name "get_file") as [_ | _].
  { unfold _fallback_get_file. destruct (binds_leading _ _ _); simpl;
      [| discriminate].
    intros H. inversion H. eexists _, _. repeat split. discriminate. }
  destruct (String.eqb_spec function_name "delete_file") as [_ | _].
  { unfold _fallback_delete_file. destruct (binds_leading _ _ _); simpl;
      [| discriminate].
    intros H. inversion H. eexists _, _. repeat split. discriminate. }
  destruct (String.eqb_spec function_name "chat_completion") as [He | _];
    [contradiction |].
  simpl. intros H. inversion H. eexists _, _. repeat split. discriminate.
Qed.

Lemma fallback_marks_failure_witness :
  "compute_embeddings" <> "chat_completion" /\
  exists d msg,
    (get_fallback_response "compute_embeddings" [VInt 1] [] Samples.world0).1
    = Returned (VDict d) /\
    dict_get "success" d = Some (VBool false) /\
    dict_get "message" d = Some (VStr msg).
Proof.
  assert (Hne : "compute_embeddings" <> "chat_completion") by discriminate.
  split; [exact Hne |].
  destruct (fallback_marks_failure "compute_embeddings" [VInt 1] [] Samples.world0 _
              Hne eq_refl) as (d & msg & Hd & Hs & Hm & _).
  exists d, msg. rewrite <- Hd. auto.
Defined.



End FallbackExtras.

(** ** Two-tier cache: retries, time to live, invalidation, clean-up, keys *)

Module CacheExtras.
Import StoreFacts.



(** X10.  An error that is not an httpx error, and an HTTP error whose
    response has a status below 500, are not retried: the function is
    awaited once and the error is raised as it is. *)
Theorem no_retry_for_other_or_client_errors (rt : Runtime) (func : Callable)
    (args : list value) (kw : kwargs) (w : World) (e : exn) (v : Env) :
  body func args kw (env w) = (Raised e, v) ->
  EnhancedCache.retriable e = false \/ EnhancedCache.giveup e = true ->
  EnhancedCache._execute_with_retry rt func args kw w
  = (Raised e,
     mkWorld v (redis w) (ai_cache w) (calls w ++ [__name__ func]) (logged w)).
Proof.
  intros Hb Hno. unfold EnhancedCache._execute_with_retry. simpl.
  unfold invoke. rewrite Hb.
  destruct Hno as [-> | ->]; [reflexivity |].
  now rewrite andb_false_r.
Qed.

Lemma no_retry_witness :
  EnhancedCache.giveup (Exn (HTTPStatusError 404) "Client error '404 Not Found'") = true /\
  EnhancedCache._execute_with_retry Samples.rt (Samples.rejecting "get_file")
    [VStr "f1"] [] Samples.world0
  = (Raised (Exn (HTTPStatusError 404) "Client error '404 Not Found'"),
     mkWorld (mkEnv 1001 true true) ∅ [] ["get_file"] []).
Proof.
  split; [reflexivity |].
  exact (no_retry_for_other_or_client_errors Samples.rt (Samples.rejecting "get_file")
    [VStr "f1"] [] Samples.world0 _ _ eq_refl (or_intror eq_refl)).
Defined.

(** X11.  A first attempt that raises a retriable error (a timeout, a
    transport error, a status of 500 or more) is always followed by a
    second attempt after the wait; when the second attempt returns, its
    result is the result of the call and the first error is dropped. *)
Theorem transient_failure_is_retried (rt : Runtime) (func : Callable)
    (args : list value) (kw : kwargs) (w : World) (e : exn) (v1 v2 : Env) (r : value) :
  body func args kw (env w) = (Raised e, v1) ->
  EnhancedCache.retriable e = true ->
  EnhancedCache.giveup e = false ->
  body func args kw
    (mkEnv (time_now v1 + backoff_wait rt 1) (redis_up v1) (db_up v1)) = (Returned r, v2) ->
  EnhancedCache._execute_with_retry rt func args kw w
  = (Returned r,
     mkWorld v2 (redis w) (ai_cache w)
       (calls w ++ [__name__ func; __name__ func]) (logged w)).
Proof.
  intros Hb1 Hre Hgi Hb2. unfold EnhancedCache._execute_with_retry. simpl.
  unfold invoke at 1. rewrite Hb1, Hre, Hgi. simpl.
  rewrite Z.sub_diag. simpl.
  unfold invoke, EnhancedCache.sleep. simpl. rewrite Hb2.
  rewrite <- app_assoc. reflexivity.
Qed.

Lemma transient_failure_witness :
  EnhancedCache.retriable
    (Exn (HTTPStatusError 503) "Server error '503 Service Unavailable'") = true /\
  EnhancedCache._execute_with_retry Samples.rt
    (Samples.flaky "list_files" Samples.new_answer) [] [] Samples.world0
  = (Returned Samples.new_answer,
     mkWorld (mkEnv 1003 true true) ∅ [] ["list_files"; "list_files"] []).
Proof.
  split; [reflexivity |].
  exact (transient_failure_is_retried Samples.rt
    (Samples.flaky "list_files" Samples.new_answer) [] [] Samples.world0
    _ _ _ _ eq_refl eq_refl eq_refl eq_refl).
Defined.

(** The two classes look a key up in the table with the same code. *)
Lemma flux_db_lookup_same :
  FluxAICache._get_from_db_cache = EnhancedCache._get_from_db_cache.
Proof. reflexivity. Qed.

(** A call that misses both tiers awaits the function. *)
Lemma miss_awaits (rt : Runtime) (self : EnhancedCache.EnhancedCache)
    (func : Callable) args ttl key kw w cached db_result w1 :
  Redis.get key w = (Returned cached, w) ->
  bytes_truthy cached = false ->
  EnhancedCache._get_from_db_cache key w = (Returned db_result, w1) ->
  option_truthy db_result = false ->
  awaited func w
    (EnhancedCache.get_or_execute rt self func args ttl (Some key) false kw w).2.
Proof.
  intros Hget Hc Hdb Hd.
  destruct (EnhancedFacts.db_lookup_frame key w) as (r' & w' & Hdb' & _ & _ & _ & Hc1).
  rewrite Hdb in Hdb'. inversion Hdb'; subst r' w'.
  rewrite (EnhancedFacts.full_miss rt self func args ttl key kw w cached db_result w1
             Hget Hc Hdb Hd).
  unfold bind at 1.
  match goal with |- context [EnhancedCache._execute_with_retry rt func args kw ?w2] =>
    destruct (EnhancedFacts.execute_with_retry_frame rt func args kw w2)
      as (_ & _ & _ & rest & Hcr);
    destruct (EnhancedCache._execute_with_retry rt func args kw w2) as [[result | e] wd] end;
    simpl in Hcr; rewrite Hc1 in Hcr.
  - unfold bind at 1.
    destruct (EnhancedFacts.cache_result_spec rt self key result ttl wd)
      as [(_ & _ & we & Hres & _ & Hcw & _) | (_ & e & Hres)]; rewrite Hres; simpl;
      exists rest; congruence.
  - exists rest. exact Hcr.
Qed.

Lemma flux_miss_awaits (rt : Runtime) (self : FluxAICache.FluxAICache)
    (func : Callable) args ttl key kw w cached db_result w1 :
  Redis.get key w = (Returned cached, w) ->
  bytes_truthy cached = false ->
  FluxAICache._get_from_db_cache key w = (Returned db_result, w1) ->
  option_truthy db_result = false ->
  awaited func w
    (FluxAICache.get_or_execute rt self func args ttl (Some key) kw w).2.
Proof.
  intros Hget Hc Hdb Hd.
  destruct (FluxFacts.flux_db_lookup_frame key w) as (r' & w' & Hdb' & _ & _ & _ & Hc1).
  rewrite Hdb in Hdb'. inversion Hdb'; subst r' w'.
  rewrite (FluxFacts.flux_full_miss rt self func args ttl key kw w cached db_result w1
             Hget Hc Hdb Hd).
  unfold bind at 1.
  match goal with |- context [invoke func args kw ?w2] =>
    destruct (FluxFacts.invoke_frame func args kw w2) as (_ & _ & _ & rest & Hcr);
    destruct (invoke func args kw w2) as [[result | e] wd] end;
    simpl in Hcr; rewrite Hc1 in Hcr.
  - unfold bind at 1.
    destruct (FluxFacts.flux_cache_result_spec rt self key result ttl wd)
      as [(_ & _ & we & Hres & _ & Hcw & _) | (_ & e & Hres)]; rewrite Hres; simpl;
      exists rest; congruence.
  - exists rest. exact Hcr.
Qed.

(** X12.  A time to live that is not positive loses the result.  On the
    full-miss path, when the function returns R and ttl or default_ttl is
    0 or less (a negative ttl), the SET is refused, get_or_execute raises
    the Redis error instead of returning R, and nothing is stored in
    either tier. *)
Theorem nonpositive_ttl_loses_the_result (rt : Runtime)
    (self : EnhancedCache.EnhancedCache) (func : Callable) (args : list value)
    (ttl : option Z) (key : string) (kw : kwargs)
    (w w1 w2 : World) (cached : option string) (db_result : option value) (R : value) :
  Redis.get key w = (Returned cached, w) ->
  bytes_truthy cached = false ->
  EnhancedCache._get_from_db_cache key w = (Returned db_result, w1) ->
  option_truthy db_result = false ->
  EnhancedCache._execute_with_retry rt func args kw
    (log DEBUG ("Cache miss for " +:+ key +:+ ", executing function with retry") w1)
  = (Returned R, w2) ->
  redis_up (env w2) = true ->
  ttl_or ttl (EnhancedCache.default_ttl self) <= 0 ->
  EnhancedCache.get_or_execute rt self func args ttl (Some key) false kw w
  = (Raised (Exn RedisResponseError "invalid expire time in 'set' command"), w2) /\
  redis w2 = redis w /\ ai_cache w2 = ai_cache w.
Proof.
  intros Hget Hc Hdb Hd Hexec Hup Httl.
  rewrite (EnhancedFacts.full_miss rt self func args ttl key kw w cached db_result w1
             Hget Hc Hdb Hd).
  unfold bind at 1. rewrite Hexec. unfold bind at 1.
  unfold EnhancedCache._cache_result. unfold bind at 1. unfold Redis.set.
  rewrite Hup. destruct (Z.leb_spec (ttl_or ttl (EnhancedCache.default_ttl self)) 0);
    [| lia].
  split; [reflexivity |].
  pose proof (EnhancedFacts.execute_with_retry_frame rt func args kw
    (log DEBUG ("Cache miss for " +:+ key +:+ ", executing function with retry") w1))
    as (Hr & Ha & _ & _).
  rewrite Hexec in Hr, Ha. simpl in Hr, Ha.
  destruct (EnhancedFacts.db_lookup_frame key w) as (r' & w' & Hdb' & _ & Hr' & Ha' & _).
  rewrite Hdb in Hdb'. inversion Hdb'; subst r' w'.
  split; congruence.
Qed.

Lemma nonpositive_ttl_witness :
  ttl_or (Some (-5)) (EnhancedCache.default_ttl EnhancedCache.init) <= 0 /\
  (EnhancedCache.get_or_execute Samples.rt EnhancedCache.init
     (Samples.answering "list_files" Samples.new_answer) [] (Some (-5)) (Some "k") false []
     Samples.world0).1
  = Raised (Exn RedisResponseError "invalid expire time in 'set' command").
Proof.
  assert (Httl : ttl_or (Some (-5)) (EnhancedCache.default_ttl EnhancedCache.init) <= 0)
    by (vm_compute; discriminate).
  split; [exact Httl |].
  pose proof (nonpositive_ttl_loses_the_result Samples.rt EnhancedCache.init
    (Samples.answering "list_files" Samples.new_answer) [] (Some (-5)) "k" []
    Samples.world0 Samples.world0
    (EnhancedCache._execute_with_retry Samples.rt
       (Samples.answering "list_files" Samples.new_answer) [] []
       (log DEBUG "Cache miss for k, executing function with retry" Samples.world0)).2
    None None Samples.new_answer
    eq_refl eq_refl eq_refl eq_refl eq_refl eq_refl Httl) as (H & _).
  now rewrite H.
Defined.

(** X13.  A payload that Python counts as false (None, False, 0, an empty
    string, list or dict) is never a hit of the persistent tier: with no
    entry in the volatile tier, a valid row that holds such a payload is
    skipped and the function is awaited again.  In both cache classes. *)
Theorem falsy_row_is_not_a_hit (rt : Runtime) (func : Callable) (args : list value)
    (ttl : option Z) (key : string) (kw : kwargs) (w w1 : World) (v : value) :
  Redis.get key w = (Returned None, w) ->
  EnhancedCache._get_from_db_cache key w = (Returned (Some v), w1) ->
  truthy v = false ->
  (forall self : EnhancedCache.EnhancedCache,
     awaited func w
       (EnhancedCache.get_or_execute rt self func args ttl (Some key) false kw w).2) /\
  (forall self : FluxAICache.FluxAICache,
     awaited func w
       (FluxAICache.get_or_execute rt self func args ttl (Some key) kw w).2).
Proof.
  intros Hget Hdb Hv. split; intros self.
  - exact (miss_awaits rt self func args ttl key kw w None (Some v) w1
             Hget eq_refl Hdb Hv).
  - exact (flux_miss_awaits rt self func args ttl key kw w None (Some v) w1
             Hget eq_refl Hdb Hv).
Qed.

Lemma falsy_row_witness :
  EnhancedCache._get_from_db_cache "k" Samples.world_row_empty
  = (Returned (Some (VDict [])), Samples.world_row_empty) /\
  awaited (Samples.answering "list_files" (VDict [])) Samples.world_row_empty
    (FluxAICache.get_or_execute Samples.rt FluxAICache.init
       (Samples.answering "list_files" (VDict [])) [] None (Some "k") []
       Samples.world_row_empty).2.
Proof.
  split; [reflexivity |].
  exact (proj2 (falsy_row_is_not_a_hit Samples.rt
    (Samples.answering "list_files" (VDict [])) [] None "k" []
    Samples.world_row_empty Samples.world_row_empty (VDict [])
    eq_refl eq_refl eq_refl) FluxAICache.init).
Defined.

(** X14.  A hit in the persistent tier copies the payload into the
    volatile tier with a fresh time to live, ttl or default_ttl counted
    from the time of the hit and not from the row: the call returns the
    payload without awaiting the function, and every later lookup of the
    key before that new expiry gets the payload from the volatile tier,
    also when the row's own expires_at has passed by then. *)
Theorem db_hit_renews_time_to_live (rt : Runtime)
    (self : EnhancedCache.EnhancedCache) (func : Callable) (args : list value)
    (ttl : option Z) (key : string) (kw : kwargs) (w w1 : World) (v : value)
    (reqs : list request) :
  redis_up (env w) = true ->
  Redis.live (redis w) (time_now (env w)) key = None ->
  EnhancedCache._get_from_db_cache key w = (Returned (Some v), w1) ->
  truthy v = true ->
  0 < ttl_or ttl (EnhancedCache.default_ttl self) ->
  json_loads rt (json_dumps rt v) = Some v ->
  json_dumps rt v <> EmptyString ->
  Forall (before_expiry
            (time_now (env w) + ttl_or ttl (EnhancedCache.default_ttl self))) reqs ->
  (EnhancedCache.get_or_execute rt self func args ttl (Some key) false kw w).1
  = Returned v /\
  calls (EnhancedCache.get_or_execute rt self func args ttl (Some key) false kw w).2
  = calls w /\
  (serve (fun f a t k => EnhancedCache.get_or_execute rt self f a t (Some key) false k)
     reqs
     (EnhancedCache.get_or_execute rt self func args ttl (Some key) false kw w).2).1
  = map (fun _ => Returned v) reqs /\
  calls
    (serve (fun f a t k => EnhancedCache.get_or_execute rt self f a t (Some key) false k)
       reqs
       (EnhancedCache.get_or_execute rt self func args ttl (Some key) false kw w).2).2
  = calls w.
Proof.
  intros Hup Hlive Hdb Hv Httl Hload Hne Hall.
  destruct (EnhancedFacts.db_lookup_frame key w) as (r' & w' & Hdb' & He1 & Hr1 & _ & Hc1).
  rewrite Hdb in Hdb'. inversion Hdb'; subst r' w'.
  assert (Hup1 : redis_up (env w1) = true) by congruence.
  assert (Hcall : EnhancedCache.get_or_execute rt self func args ttl (Some key) false kw w
            = (Returned v,
               set_redis
                 (<[key := (json_dumps rt v,
                            time_now (env w) + ttl_or ttl (EnhancedCache.default_ttl self))]>
                    (redis w))
                 (log DEBUG ("DB cache hit for " +:+ key) w1))).
  { unfold EnhancedCache.get_or_execute. simpl.
    unfold bind at 1. rewrite (redis_get_up _ _ Hup), Hlive. simpl.
    unfold bind at 1. rewrite Hdb. simpl. rewrite Hv.
    unfold bind at 1. unfold tell at 1. unfold bind at 1.
    rewrite redis_set_ok by (simpl; assumption). simpl.
    unfold ret. rewrite He1, Hr1. reflexivity. }
  rewrite Hcall. cbn [fst snd].
  split; [reflexivity |]. split; [exact Hc1 |].
  match goal with |- context [serve ?g reqs ?w2] =>
    destruct (EnhancedFacts.served_from_redis rt self key v
                (time_now (env w) + ttl_or ttl (EnhancedCache.default_ttl self))
                reqs w2 Hload Hne) as (H1 & H2 & _)
  end; [simpl; apply lookup_insert_eq | exact Hall |].
  split; [exact H1 |]. etransitivity; [exact H2 |]. exact Hc1.
Qed.

(** The instance of X14 on a row that expires at 1001, read at 1000: the
    calls at 2000 and 4599 still get its payload. *)
Lemma db_hit_renews_witness :
  EnhancedCache._get_from_db_cache "k" Samples.world_row_ending
  = (Returned (Some Samples.old_answer), Samples.world_row_ending) /\
  Forall (before_expiry
            (time_now (env Samples.world_row_ending)
             + ttl_or None (EnhancedCache.default_ttl EnhancedCache.init)))
    [mkRequest (Samples.failing "list_files") [] [] None (mkEnv 2000 true true);
     mkRequest (Samples.failing "list_files") [] [] None (mkEnv 4599 true false)] /\
  (serve (fun f a t k =>
            EnhancedCache.get_or_execute Samples.rt EnhancedCache.init f a t (Some "k") false k)
     [mkRequest (Samples.failing "list_files") [] [] None (mkEnv 2000 true true);
      mkRequest (Samples.failing "list_files") [] [] None (mkEnv 4599 true false)]
     (EnhancedCache.get_or_execute Samples.rt EnhancedCache.init
        (Samples.failing "list_files") [] None (Some "k") false []
        Samples.world_row_ending).2).1
  = [Returned Samples.old_answer; Returned Samples.old_answer].
Proof.
  assert (Hall : Forall (before_expiry
            (time_now (env Samples.world_row_ending)
             + ttl_or None (EnhancedCache.default_ttl EnhancedCache.init)))
    [mkRequest (Samples.failing "list_files") [] [] None (mkEnv 2000 true true);
     mkRequest (Samples.failing "list_files") [] [] None (mkEnv 4599 true false)])
    by (repeat constructor).
  assert (Hne : json_dumps Samples.rt Samples.old_answer <> EmptyString)
    by (vm_compute; discriminate).
  split; [reflexivity |]. split; [exact Hall |].
  exact (proj1 (proj2 (proj2 (db_hit_renews_time_to_live Samples.rt EnhancedCache.init
    (Samples.failing "list_files") [] None "k" []
    Samples.world_row_ending Samples.world_row_ending Samples.old_answer _
    eq_refl eq_refl eq_refl eq_refl eq_refl eq_refl Hne Hall)))).
Defined.

(** The two classes invalidate and clean up with the same code. *)
Lemma flux_invalidate_same : FluxAICache.invalidate = EnhancedCache.invalidate.
Proof. reflexivity. Qed.

Lemma flux_cleanup_same : FluxAICache.cleanup_expired = EnhancedCache.cleanup_expired.
Proof. reflexivity. Qed.

Lemma invalidate_up (key : string) (w : World) :
  redis_up (env w) = true -> db_up (env w) = true ->
  EnhancedCache.invalidate key w
  = (Returned tt,
     set_ai_cache
       (List.filter (fun r => negb (String.eqb (request_hash r) key)) (ai_cache w))
       (set_redis (base.delete key (redis w)) w)).
Proof.
  intros Hr Hd. unfold EnhancedCache.invalidate.
  unfold bind at 1. unfold Redis.delete. rewrite Hr.
  unfold try_except, bind, DB.execute_delete, DB.commit_delete.
  cbn [set_redis env]. rewrite Hd. cbn [set_redis env]. rewrite Hd. reflexivity.
Qed.

Lemma rows_of_without (key k' : string) (rows : list AICache) :
  rows_of k' (List.filter (fun r => negb (String.eqb (request_hash r) key)) rows)
  = if String.eqb k' key then [] else rows_of k' rows.
Proof.
  unfold rows_of. induction rows as [| r rs IH]; simpl.
  - now destruct (String.eqb k' key).
  - destruct (String.eqb_spec (request_hash r) key) as [He | Hne]; simpl.
    + rewrite IH. destruct (String.eqb_spec k' key) as [-> | Hk]; [reflexivity |].
      destruct (String.eqb_spec (request_hash r) k'); [congruence | reflexivity].
    + rewrite IH. destruct (String.eqb_spec k' key) as [-> | Hk].
      * destruct (String.eqb_spec (request_hash r) key); [congruence | reflexivity].
      * reflexivity.
Qed.

Lemma no_rows_all_expired (key : string) (t : Z) (rows : list AICache) :
  rows_of key rows = [] -> all_expired key t rows.
Proof.
  intros Hnone r Hin Hk. exfalso.
  assert (Hr : In r (rows_of key rows)).
  { unfold rows_of. apply filter_In. split; [exact Hin |]. now apply String.eqb_eq. }
  rewrite Hnone in Hr. destruct Hr.
Qed.

(** X15.  With both stores up, invalidate returns, leaves no entry for the
    key in the volatile tier and no row for it in the table, and leaves
    the entries and rows of every other key as they were; the next
    get_or_execute on the key (of either class) awaits its function. *)
Theorem invalidate_removes_the_key (rt : Runtime) (func : Callable)
    (args : list value) (ttl : option Z) (key : string) (kw : kwargs) (w : World) :
  redis_up (env w) = true ->
  db_up (env w) = true ->
  (EnhancedCache.invalidate key w).1 = Returned tt /\
  redis (EnhancedCache.invalidate key w).2 !! key = None /\
  rows_of key (ai_cache (EnhancedCache.invalidate key w).2) = [] /\
  (forall k', k' <> key ->
     redis (EnhancedCache.invalidate key w).2 !! k' = redis w !! k' /\
     rows_of k' (ai_cache (EnhancedCache.invalidate key w).2) = rows_of k' (ai_cache w)) /\
  (forall self : EnhancedCache.EnhancedCache,
     awaited func (EnhancedCache.invalidate key w).2
       (EnhancedCache.get_or_execute rt self func args ttl (Some key) false kw
          (EnhancedCache.invalidate key w).2).2) /\
  (forall self : FluxAICache.FluxAICache,
     awaited func (FluxAICache.invalidate key w).2
       (FluxAICache.get_or_execute rt self func args ttl (Some key) kw
          (FluxAICache.invalidate key w).2).2).
Proof.
  intros Hr Hd. rewrite flux_invalidate_same, (invalidate_up key w Hr Hd).
  cbn [fst snd].
  set (w' := set_ai_cache _ (set_redis _ w)).
  assert (Hredis : redis w' !! key = None) by (simpl; apply lookup_delete_eq).
  assert (Hrows : rows_of key (ai_cache w') = []).
  { simpl. rewrite rows_of_without. now rewrite String.eqb_refl. }
  assert (Hget : Redis.get key w' = (Returned None, w')).
  { rewrite redis_get_up by exact Hr. unfold Redis.live. now rewrite Hredis. }
  assert (Hexp : all_expired key (time_now (env w')) (ai_cache w'))
    by now apply no_rows_all_expired.
  split; [reflexivity |]. split; [exact Hredis |]. split; [exact Hrows |].
  split; [| split].
  - intros k' Hk. split.
    + simpl. now apply lookup_delete_ne.
    + simpl. rewrite rows_of_without.
      destruct (String.eqb_spec k' key); [contradiction | reflexivity].
  - intros self. now apply EnhancedFacts.expired_is_miss.
  - intros self. now apply FluxFacts.flux_expired_is_miss.
Qed.

Lemma invalidate_removes_witness :
  redis_up (env Samples.world_cached) = true /\
  db_up (env Samples.world_cached) = true /\
  redis (EnhancedCache.invalidate "k" Samples.world_cached).2 !! "k" = None /\
  rows_of "k" (ai_cache (EnhancedCache.invalidate "k" Samples.world_cached).2) = [].
Proof.
  split; [reflexivity |]. split; [reflexivity |].
  pose proof (invalidate_removes_the_key Samples.rt
    (Samples.answering "list_files" Samples.new_answer) [] None "k" []
    Samples.world_cached eq_refl eq_refl) as (_ & H2 & H3 & _).
  exact (conj H2 H3).
Defined.

(** X16.  Invalidation is idempotent: with both stores up, a second
    invalidate of the same key returns and changes nothing, and so does
    an invalidate of a key that was never cached. *)
Theorem invalidate_is_idempotent (key : string) (w : World) :
  redis_up (env w) = true ->
  db_up (env w) = true ->
  EnhancedCache.invalidate key (EnhancedCache.invalidate key w).2
  = (Returned tt, (EnhancedCache.invalidate key w).2) /\
  (redis w !! key = None -> rows_of key (ai_cache w) = [] ->
   (EnhancedCache.invalidate key w).1 = Returned tt /\
   redis (EnhancedCache.invalidate key w).2 = redis w /\
   ai_cache (EnhancedCache.invalidate key w).2 = ai_cache w) /\
  FluxAICache.invalidate key (FluxAICache.invalidate key w).2
  = (Returned tt, (FluxAICache.invalidate key w).2).
Proof.
  intros Hr Hd.
  assert (Hfilter : forall rows,
            List.filter (fun r => negb (String.eqb (request_hash r) key))
              (List.filter (fun r => negb (String.eqb (request_hash r) key)) rows)
            = List.filter (fun r => negb (String.eqb (request_hash r) key)) rows).
  { induction rows as [| r rs IH]; simpl; [reflexivity |].
    destruct (negb (String.eqb (request_hash r) key)) eqn:Hk; simpl;
      [rewrite Hk, IH; reflexivity | exact IH]. }
  assert (Htwice : EnhancedCache.invalidate key (EnhancedCache.invalidate key w).2
                   = (Returned tt, (EnhancedCache.invalidate key w).2)).
  { rewrite (invalidate_up key w Hr Hd). cbn [snd].
    rewrite invalidate_up by (simpl; assumption).
    unfold set_ai_cache, set_redis. simpl.
    rewrite Hfilter, delete_delete_eq. reflexivity. }
  split; [exact Htwice |]. split; [| rewrite flux_invalidate_same; exact Htwice].
  intros Hnone Hrows. rewrite (invalidate_up key w Hr Hd). simpl.
  split; [reflexivity |]. split; [now apply delete_id |].
  unfold rows_of in Hrows. induction (ai_cache w) as [| r rs IH]; simpl in *;
    [reflexivity |].
  destruct (String.eqb (request_hash r) key); simpl in *; [discriminate |].
  now rewrite IH.
Qed.

Lemma invalidate_idempotent_witness :
  redis_up (env Samples.world_cached) = true /\
  db_up (env Samples.world_cached) = true /\
  EnhancedCache.invalidate "k" (EnhancedCache.invalidate "k" Samples.world_cached).2
  = (Returned tt, (EnhancedCache.invalidate "k" Samples.world_cached).2).
Proof.
  split; [reflexivity |]. split; [reflexivity |].
  exact (proj1 (invalidate_is_idempotent "k" Samples.world_cached eq_refl eq_refl)).
Defined.

(** X17.  invalidate deletes from the volatile tier first and unguarded:
    when the volatile store is down it raises the Redis error and the
    table is not touched, so the row of the key stays in the persistent
    tier. *)
Theorem invalidate_raises_when_redis_is_down (key : string) (w : World) :
  redis_up (env w) = false ->
  EnhancedCache.invalidate key w
  = (Raised (Exn RedisConnectionError "Error connecting to Redis"), w) /\
  FluxAICache.invalidate key w
  = (Raised (Exn RedisConnectionError "Error connecting to Redis"), w).
Proof.
  intros Hr. rewrite flux_invalidate_same.
  assert (H : EnhancedCache.invalidate key w
              = (Raised (Exn RedisConnectionError "Error connecting to Redis"), w)).
  { unfold EnhancedCache.invalidate. unfold bind at 1. unfold Redis.delete.
    now rewrite Hr. }
  auto.
Qed.

Lemma invalidate_redis_down_witness :
  redis_up (env (set_env (mkEnv 1000 false true) Samples.world_cached)) = false /\
  ai_cache (EnhancedCache.invalidate "k"
              (set_env (mkEnv 1000 false true) Samples.world_cached)).2
  = [mkAICache "k" Samples.old_answer 4000].
Proof.
  split; [reflexivity |].
  rewrite (proj1 (invalidate_raises_when_redis_is_down "k"
    (set_env (mkEnv 1000 false true) Samples.world_cached) eq_refl)).
  reflexivity.
Defined.

(** X18.  When the database is down and the volatile store is up,
    invalidate still returns: the entry of the volatile tier is removed,
    the database error is logged and swallowed, and the row stays in the
    table. *)
Theorem invalidate_swallows_database_errors (key : string) (w : World) :
  redis_up (env w) = true ->
  db_up (env w) = false ->
  EnhancedCache.invalidate key w
  = (Returned tt,
     log ERROR "Error invalidating cache: could not connect to server"
       (set_redis (base.delete key (redis w)) w)) /\
  FluxAICache.invalidate key w = EnhancedCache.invalidate key w.
Proof.
  intros Hr Hd. split; [| reflexivity].
  unfold EnhancedCache.invalidate.
  unfold bind at 1. unfold Redis.delete. rewrite Hr.
  unfold try_except, bind, DB.execute_delete, DB.rollback, tell, ret.
  cbn [set_redis env]. rewrite Hd. reflexivity.
Qed.

Lemma invalidate_db_down_witness :
  db_up (env (set_env (mkEnv 1000 true false) Samples.world_cached)) = false /\
  (EnhancedCache.invalidate "k"
     (set_env (mkEnv 1000 true false) Samples.world_cached)).1 = Returned tt /\
  ai_cache (EnhancedCache.invalidate "k"
              (set_env (mkEnv 1000 true false) Samples.world_cached)).2
  = [mkAICache "k" Samples.old_answer 4000].
Proof.
  split; [reflexivity |].
  rewrite (proj1 (invalidate_swallows_database_errors "k"
    (set_env (mkEnv 1000 true false) Samples.world_cached) eq_refl eq_refl)).
  split; reflexivity.
Defined.

Lemma cleanup_up (w : World) :
  db_up (env w) = true ->
  EnhancedCache.cleanup_expired w
  = (Returned (Z.of_nat (length (List.filter (fun r => expires_at r <? time_now (env w))
                                   (ai_cache w)))),
     log INFO ("Removed " +:+
               pretty (Z.of_nat (length (List.filter
                                           (fun r => expires_at r <? time_now (env w))
                                           (ai_cache w))))
               +:+ " expired cache entries")
       (set_ai_cache
          (List.filter (fun r => negb (expires_at r <? time_now (env w))) (ai_cache w))
          w)).
Proof.
  intros Hd. unfold EnhancedCache.cleanup_expired.
  unfold try_except, bind, utcnow, DB.execute_delete, DB.commit_delete, tell, ret.
  cbv beta iota zeta. rewrite Hd. cbv beta iota zeta. rewrite Hd. reflexivity.
Qed.

Lemma filter_split_length (p : AICache -> bool) (rows : list AICache) :
  (length (List.filter p rows) + length (List.filter (fun r => negb (p r)) rows)
   = length rows)%nat.
Proof.
  induction rows as [| r rs IH]; simpl; [reflexivity |].
  destruct (p r); simpl; lia.
Qed.

(** X19.  With the database up, cleanup_expired deletes exactly the rows
    whose expires_at is earlier than the current time and returns how
    many they were; the rows that expire now or later stay, in their
    order, and the volatile tier is not touched.  In both cache classes. *)
Theorem cleanup_removes_exactly_the_expired (w : World) :
  db_up (env w) = true ->
  (EnhancedCache.cleanup_expired w).1
  = Returned (Z.of_nat (length (ai_cache w))
              - Z.of_nat (length (ai_cache (EnhancedCache.cleanup_expired w).2))) /\
  ai_cache (EnhancedCache.cleanup_expired w).2
  = List.filter (fun r => time_now (env w) <=? expires_at r) (ai_cache w) /\
  redis (EnhancedCache.cleanup_expired w).2 = redis w /\
  calls (EnhancedCache.cleanup_expired w).2 = calls w /\
  FluxAICache.cleanup_expired w = EnhancedCache.cleanup_expired w.
Proof.
  intros Hd.
  assert (Hrest : forall rows,
            List.filter (fun r => negb (expires_at r <? time_now (env w))) rows
            = List.filter (fun r => time_now (env w) <=? expires_at r) rows).
  { intros rows. apply filter_ext. intros r. now rewrite Z.leb_antisym. }
  rewrite flux_cleanup_same, (cleanup_up w Hd). cbn [fst snd]. simpl.
  pose proof (filter_split_length (fun r => expires_at r <? time_now (env w))
                (ai_cache w)) as Hlen.
  split; [f_equal; lia |]. split; [apply Hrest |]. auto.
Qed.

Lemma cleanup_removes_witness :
  db_up (env Samples.world_mixed) = true /\
  (EnhancedCache.cleanup_expired Samples.world_mixed).1 = Returned 2 /\
  ai_cache (EnhancedCache.cleanup_expired Samples.world_mixed).2
  = [mkAICache "b" Samples.new_answer 4000; mkAICache "d" Samples.old_answer 1000].
Proof.
  split; [reflexivity |].
  pose proof (cleanup_removes_exactly_the_expired Samples.world_mixed eq_refl)
    as (H1 & H2 & _).
  split; [rewrite H1 | rewrite H2]; reflexivity.
Defined.

Lemma first_from_filter (p q : AICache -> bool) (rows : list AICache) :
  (forall r, p r = true -> q r = true) ->
  forall i j,
    snd <$> DB.first_from i p (List.filter q rows) = snd <$> DB.first_from j p rows.
Proof.
  intros Hpq. induction rows as [| r rs IH]; intros i j; simpl; [reflexivity |].
  destruct (q r) eqn:Hq; simpl.
  - destruct (p r); [reflexivity | apply IH].
  - destruct (p r) eqn:Hp; [| apply IH].
    rewrite (Hpq r Hp) in Hq. discriminate.
Qed.

Lemma db_lookup_value (key : string) (w : World) :
  (EnhancedCache._get_from_db_cache key w).1
  = Returned
      (if db_up (env w)
       then response_data <$>
              (snd <$> DB.first_from O
                 (fun r => String.eqb (request_hash r) key
                           && (time_now (env w) <? expires_at r)) (ai_cache w))
       else None).
Proof.
  unfold EnhancedCache._get_from_db_cache. unfold_m.
  destruct (db_up (env w)); [| reflexivity].
  now destruct (DB.first_from _ _ _) as [[i row] |].
Qed.

(** X20.  cleanup_expired never removes a row that a lookup would return:
    for every key, the lookup in the persistent tier gives the same
    answer after the clean-up as it would have given without it, at the
    time of the clean-up and at any later time. *)
Theorem cleanup_keeps_every_lookup (key : string) (w : World) (e : Env) :
  db_up (env w) = true ->
  time_now (env w) <= time_now e ->
  (EnhancedCache._get_from_db_cache key
     (set_env e (EnhancedCache.cleanup_expired w).2)).1
  = (EnhancedCache._get_from_db_cache key (set_env e w)).1.
Proof.
  intros Hd Ht. rewrite (cleanup_up w Hd). cbn [snd].
  rewrite !db_lookup_value. simpl.
  destruct (db_up e); [| reflexivity].
  do 2 f_equal. apply first_from_filter.
  intros r Hp. apply andb_true_iff in Hp as [_ Hp].
  apply Z.ltb_lt in Hp.
  destruct (Z.ltb_spec (expires_at r) (time_now (env w))); [lia | reflexivity].
Qed.

Lemma cleanup_keeps_lookup_witness :
  db_up (env Samples.world_mixed) = true /\
  time_now (env Samples.world_mixed) <= time_now (mkEnv 2000 true true) /\
  (EnhancedCache._get_from_db_cache "b"
     (set_env (mkEnv 2000 true true)
        (EnhancedCache.cleanup_expired Samples.world_mixed).2)).1
  = Returned (Some Samples.new_answer).
Proof.
  assert (Ht : time_now (env Samples.world_mixed) <= time_now (mkEnv 2000 true true))
    by (vm_compute; discriminate).
  split; [reflexivity |]. split; [exact Ht |].
  rewrite (cleanup_keeps_every_lookup "b" Samples.world_mixed (mkEnv 2000 true true)
             eq_refl Ht).
  reflexivity.
Defined.

(** X21.  When the database is down, cleanup_expired returns 0: the error
    is logged and swallowed and nothing is removed.  In both classes. *)
Theorem cleanup_swallows_database_errors (w : World) :
  db_up (env w) = false ->
  EnhancedCache.cleanup_expired w
  = (Returned 0,
     log ERROR "Error cleaning up expired cache: could not connect to server" w) /\
  FluxAICache.cleanup_expired w = EnhancedCache.cleanup_expired w.
Proof.
  intros Hd. split; [| reflexivity].
  unfold EnhancedCache.cleanup_expired.
  unfold try_except, bind, utcnow, DB.execute_delete, DB.rollback, tell, ret.
  rewrite Hd. reflexivity.
Qed.

Lemma cleanup_db_down_witness :
  db_up (env Samples.world_db_down) = false /\
  (EnhancedCache.cleanup_expired Samples.world_db_down).1 = Returned 0.
Proof.
  split; [reflexivity |].
  rewrite (proj1 (cleanup_swallows_database_errors Samples.world_db_down eq_refl)).
  reflexivity.
Defined.

(** X22.  get_stats never reads the table.  enhanced_cache.py does not
    bind the name func that the first query is built from, so the try
    block of the database statistics raises NameError at its first
    statement: the error is logged, and total_entries, active_entries,
    expired_entries, db_oldest_entry and db_newest_entry keep their
    initial values 0, 0, 0, None and None whatever the table holds. *)
Theorem get_stats_database_counters_stay_initial (srt : EnhancedCache.StatsRuntime)
    (w : World) :
  dict_get "total_entries" (EnhancedCache.get_stats srt w).1 = Some (VInt 0) /\
  dict_get "active_entries" (EnhancedCache.get_stats srt w).1 = Some (VInt 0) /\
  dict_get "expired_entries" (EnhancedCache.get_stats srt w).1 = Some (VInt 0) /\
  dict_get "db_oldest_entry" (EnhancedCache.get_stats srt w).1 = Some VNone /\
  dict_get "db_newest_entry" (EnhancedCache.get_stats srt w).1 = Some VNone /\
  In (ERROR, "Error getting database cache stats: name 'func' is not defined")
     (logged (EnhancedCache.get_stats srt w).2) /\
  ai_cache (EnhancedCache.get_stats srt w).2 = ai_cache w /\
  redis (EnhancedCache.get_stats srt w).2 = redis w.
Proof.
  unfold EnhancedCache.get_stats.
  destruct (redis_up (env w)) eqn:Hr;
    cbn [EnhancedCache.run_block]; rewrite Hr;
    cbn [EnhancedCache.run_block]; rewrite ?Hr; simpl;
    (repeat split; try reflexivity; apply in_or_app; right; left; reflexivity).
Qed.







Lemma string_app_assoc (a b c : string) :
  String.append (String.append a b) c = String.append a (String.append b c).
Proof.
  induction a as [| x a' IH]; [reflexivity |].
  change (String x ((a' +:+ b) +:+ c) = String x (a' +:+ b +:+ c)).
  now rewrite IH.
Qed.

Lemma concat_colon_split (a b : string) (l : list string) :
  String.concat ":" ((a +:+ ":" +:+ b) :: l) = String.concat ":" (a :: b :: l).
Proof.
  destruct l as [| c l].
  - reflexivity.
  - change (String.concat ":" ((a +:+ ":" +:+ b) :: c :: l))
      with ((a +:+ ":" +:+ b) +:+ ":" +:+ String.concat ":" (c :: l)).
    change (String.concat ":" (a :: b :: c :: l))
      with (a +:+ ":" +:+ b +:+ ":" +:+ String.concat ":" (c :: l)).
    generalize (":" +:+ String.concat ":" (c :: l)). intros s.
    rewrite (string_app_assoc a (":" +:+ b) s). reflexivity.
Qed.

(** X24.  Different calls can get the same cache key.  The parts of a key
    are joined with a colon before hashing, so a string argument a:b
    cannot be told from the two arguments a and b, nor a positional
    argument k:v from the keyword argument k=v.  In both cache classes,
    for every hash function, as soon as str() of a string is the string. *)
Theorem cache_keys_collide (rt : Runtime) (func : Callable) (a b : string)
    (rest : list value) (kw : kwargs) :
  (forall s, py_str rt (VStr s) = s) ->
  FluxAICache._generate_cache_key rt func (VStr (a +:+ ":" +:+ b) :: rest) kw
  = FluxAICache._generate_cache_key rt func (VStr a :: VStr b :: rest) kw /\
  EnhancedCache._generate_cache_key rt func (VStr (a +:+ ":" +:+ b) :: rest) kw
  = EnhancedCache._generate_cache_key rt func (VStr a :: VStr b :: rest) kw /\
  FluxAICache._generate_cache_key rt func [VStr (a +:+ ":" +:+ b)] []
  = FluxAICache._generate_cache_key rt func [] [(a, VStr b)] /\
  EnhancedCache._generate_cache_key rt func [VStr (a +:+ ":" +:+ b)] []
  = EnhancedCache._generate_cache_key rt func [] [(a, VStr b)].
Proof.
  intros Hstr.
  unfold FluxAICache._generate_cache_key, EnhancedCache._generate_cache_key.
  cbn [map is_scalar app sorted_items foldr insert_sorted fst snd]. rewrite !Hstr.
  assert (Hcons : forall x y l,
            String.concat ":" (x :: y :: l) = x +:+ ":" +:+ String.concat ":" (y :: l))
    by reflexivity.
  repeat split; f_equal.
  - now rewrite !(Hcons (__name__ func)), concat_colon_split.
  - now rewrite !(Hcons (__name__ func)), concat_colon_split.
Qed.

Lemma cache_keys_collide_witness :
  (forall s, py_str Samples.rt (VStr s) = s) /\
  FluxAICache._generate_cache_key Samples.rt (Samples.failing "get_file")
    [VStr ("docs" +:+ ":" +:+ "7")] []
  = FluxAICache._generate_cache_key Samples.rt (Samples.failing "get_file")
      [VStr "docs"; VStr "7"] [].
Proof.
  assert (Hstr : forall s, py_str Samples.rt (VStr s) = s) by reflexivity.
  split; [exact Hstr |].
  exact (proj1 (cache_keys_collide Samples.rt (Samples.failing "get_file")
                  "docs" "7" [] [] Hstr)).
Defined.

(** What a call of get_or_execute can do to the table: nothing, or the
    write of [_cache_result] for the key. *)
Lemma enhanced_table_after (rt : Runtime) (self : EnhancedCache.EnhancedCache)
    (func : Callable) args ttl key bypass_cache kw w (P : list AICache -> Prop) :
  P (ai_cache w) ->
  (forall V expiry, P (upsert key V expiry (ai_cache w))) ->
  P (ai_cache (EnhancedCache.get_or_execute rt self func args ttl (Some key)
                 bypass_cache kw w).2).
Proof.
  intros H0 H1.
  destruct bypass_cache.
  { unfold EnhancedCache.get_or_execute.
    rewrite (proj1 (proj2 (EnhancedFacts.execute_with_retry_frame rt func args kw w))).
    exact H0. }
  unfold EnhancedCache.get_or_execute. simpl.
  unfold bind at 1.
  destruct (Redis.get key w) as [[cached | e] wa] eqn:Hget.
  2: { apply redis_get_world in Hget. now subst. }
  apply redis_get_world in Hget as ->.
  destruct (bytes_truthy cached).
  { unfold_m. now destruct (json_loads rt _). }
  unfold bind at 1.
  destruct (EnhancedFacts.db_lookup_frame key w) as (r & wb & Hdb & _ & _ & Hab & _).
  rewrite Hdb.
  destruct (option_truthy r).
  { unfold bind at 1. unfold tell at 1. unfold bind at 1.
    destruct (Redis.set _ _ _ _) as [[u | e] wc] eqn:Hset.
    - apply redis_set_returned in Hset as (_ & _ & ->). simpl. now rewrite Hab.
    - apply redis_set_raised in Hset as ->. simpl. now rewrite Hab. }
  unfold bind at 1. unfold tell at 1. unfold bind at 1.
  match goal with |- context [EnhancedCache._execute_with_retry rt func args kw ?w2] =>
    destruct (EnhancedFacts.execute_with_retry_frame rt func args kw w2) as (_ & Ha & _);
    destruct (EnhancedCache._execute_with_retry rt func args kw w2) as [[result | e] wd] end;
    simpl in Ha; rewrite Hab in Ha; [| simpl; now rewrite Ha].
  unfold bind at 1.
  destruct (EnhancedFacts.cache_result_spec rt self key result ttl wd)
    as [(_ & _ & we & Hres & _ & _ & _ & Hup & Hdown) | (_ & e & Hres)];
    rewrite Hres; simpl; [| now rewrite Ha].
  destruct (db_up (env wd)).
  - destruct (Hup eq_refl) as (Ht & _). rewrite Ht, Ha. apply H1.
  - destruct (Hdown eq_refl) as (Ht & _). now rewrite Ht, Ha.
Qed.

Lemma flux_table_after (rt : Runtime) (self : FluxAICache.FluxAICache)
    (func : Callable) args ttl key kw w (P : list AICache -> Prop) :
  P (ai_cache w) ->
  (forall V expiry,
     existsb (fun r => String.eqb (request_hash r) key) (ai_cache w) = false ->
     P (ai_cache w ++ [mkAICache key V expiry])%list) ->
  P (ai_cache (FluxAICache.get_or_execute rt self func args ttl (Some key) kw w).2).
Proof.
  intros H0 H1.
  unfold FluxAICache.get_or_execute. simpl.
  unfold bind at 1.
  destruct (Redis.get key w) as [[cached | e] wa] eqn:Hget.
  2: { apply redis_get_world in Hget. now subst. }
  apply redis_get_world in Hget as ->.
  destruct (bytes_truthy cached).
  { unfold_m. now destruct (json_loads rt _). }
  unfold bind at 1.
  destruct (FluxFacts.flux_db_lookup_frame key w) as (r & wb & Hdb & _ & _ & Hab & _).
  rewrite Hdb.
  destruct (option_truthy r).
  { unfold bind at 1. unfold tell at 1. unfold bind at 1.
    destruct (Redis.set _ _ _ _) as [[u | e] wc] eqn:Hset.
    - apply redis_set_returned in Hset as (_ & _ & ->). simpl. now rewrite Hab.
    - apply redis_set_raised in Hset as ->. simpl. now rewrite Hab. }
  unfold bind at 1. unfold tell at 1. unfold bind at 1.
  match goal with |- context [invoke func args kw ?w2] =>
    destruct (FluxFacts.invoke_frame func args kw w2) as (_ & Ha & _);
    destruct (invoke func args kw w2) as [[result | e] wd] end;
    simpl in Ha; rewrite Hab in Ha; [| simpl; now rewrite Ha].
  unfold bind at 1.
  destruct (FluxFacts.flux_cache_result_spec rt self key result ttl wd)
    as [(_ & _ & we & Hres & _ & _ & _ & Hnew & Hdup & Hdown) | (_ & e & Hres)];
    rewrite Hres; simpl; [| now rewrite Ha].
  destruct (db_up (env wd)).
  - destruct (existsb (fun r => String.eqb (request_hash r) key) (ai_cache wd)) eqn:Hp.
    + destruct (Hdup eq_refl eq_refl) as (Ht & _). now rewrite Ht, Ha.
    + destruct (Hnew eq_refl eq_refl) as (Ht & _).
      rewrite Ht, Ha. rewrite Ha in Hp. now apply H1.
  - destruct (Hdown eq_refl) as (Ht & _). now rewrite Ht, Ha.
Qed.

Lemma fresh_key_not_in (key : string) (rows : list AICache) :
  existsb (fun r => String.eqb (request_hash r) key) rows = false ->
  key ∉ map request_hash rows.
Proof.
  induction rows as [| r rs IH]; simpl; intros H.
  - apply not_elem_of_nil.
  - apply orb_false_iff in H as [Hr Hrs]. intros Hin.
    apply elem_of_cons in Hin as [-> | Hin].
    + rewrite String.eqb_refl in Hr. discriminate.
    + now apply IH.
Qed.

Lemma upsert_keeps_keys_unique (key : string) (V : value) (expiry : Z)
    (rows : list AICache) :
  NoDup (map request_hash rows) -> NoDup (map request_hash (upsert key V expiry rows)).
Proof.
  intros Hnd. unfold upsert.
  destruct (DB.first_from O _ rows) as [[i row] |] eqn:Hf.
  - apply first_from_some in Hf as (_ & Hrow & _). rewrite Nat.sub_0_r in Hrow.
    change (map request_hash (<[i := ?x]> rows)) with (request_hash <$> <[i := x]> rows).
    rewrite list_fmap_insert. simpl.
    rewrite list_insert_id; [exact Hnd |].
    change (map request_hash rows) with (request_hash <$> rows).
    rewrite list_lookup_fmap, Hrow. reflexivity.
  - rewrite map_app. simpl. apply NoDup_app. split; [exact Hnd |].
    split; [| apply NoDup_singleton].
    intros k Hk Hk'. apply elem_of_cons in Hk' as [-> | Hk'];
      [| now apply elem_of_nil in Hk'].
    apply EnhancedFacts.first_by_key_fresh in Hf.
    now apply (fresh_key_not_in key rows Hf).
Qed.

Lemma filter_keeps_keys_unique (p : AICache -> bool) (rows : list AICache) :
  NoDup (map request_hash rows) -> NoDup (map request_hash (List.filter p rows)).
Proof.
  induction rows as [| r rs IH]; simpl; intros Hnd; [exact Hnd |].
  apply NoDup_cons in Hnd as [Hin Hnd].
  destruct (p r); simpl; [| now apply IH].
  apply NoDup_cons. split; [| now apply IH].
  intros H. apply Hin.
  apply list_elem_of_In in H. apply list_elem_of_In.
  apply in_map_iff in H as (x & Hx & Hxin). apply in_map_iff.
  exists x. split; [exact Hx |]. now apply filter_In in Hxin as [Hxin _].
Qed.

Lemma invalidate_table (key : string) (w : World) :
  ai_cache (EnhancedCache.invalidate key w).2 = ai_cache w \/
  ai_cache (EnhancedCache.invalidate key w).2
  = List.filter (fun r => negb (String.eqb (request_hash r) key)) (ai_cache w).
Proof.
  destruct (redis_up (env w)) eqn:Hr.
  - destruct (db_up (env w)) eqn:Hd.
    + right. now rewrite (invalidate_up key w Hr Hd).
    + left. now rewrite (proj1 (invalidate_swallows_database_errors key w Hr Hd)).
  - left. now rewrite (proj1 (invalidate_raises_when_redis_is_down key w Hr)).
Qed.

(** X25.  The cache never makes two rows with the same request_hash: when
    the keys of the table are distinct before, they are distinct after
    get_or_execute of either class (whatever the function does and
    whichever store is down), after invalidate and after
    cleanup_expired. *)
Theorem request_hash_stays_unique (rt : Runtime) (w : World) :
  NoDup (map request_hash (ai_cache w)) ->
  (forall (self : EnhancedCache.EnhancedCache) func args ttl key bypass_cache kw,
     NoDup (map request_hash
              (ai_cache (EnhancedCache.get_or_execute rt self func args ttl (Some key)
                           bypass_cache kw w).2))) /\
  (forall (self : FluxAICache.FluxAICache) func args ttl key kw,
     NoDup (map request_hash
              (ai_cache (FluxAICache.get_or_execute rt self func args ttl (Some key)
                           kw w).2))) /\
  (forall key,
     NoDup (map request_hash (ai_cache (EnhancedCache.invalidate key w).2))) /\
  NoDup (map request_hash (ai_cache (EnhancedCache.cleanup_expired w).2)).
Proof.
  intros Hnd. repeat split.
  - intros self func args ttl key bypass_cache kw.
    apply enhanced_table_after; [exact Hnd |].
    intros V expiry. now apply upsert_keeps_keys_unique.
  - intros self func args ttl key kw.
    apply flux_table_after; [exact Hnd |].
    intros V expiry Hfresh.
    rewrite map_app. simpl. apply NoDup_app. split; [exact Hnd |].
    split; [| apply NoDup_singleton].
    intros k Hk Hk'. apply elem_of_cons in Hk' as [-> | Hk'];
      [| now apply elem_of_nil in Hk'].
    now apply (fresh_key_not_in key (ai_cache w) Hfresh).
  - intros key. destruct (invalidate_table key w) as [-> | ->]; [exact Hnd |].
    now apply filter_keeps_keys_unique.
  - destruct (db_up (env w)) eqn:Hd.
    + rewrite (cleanup_up w Hd). simpl. now apply filter_keeps_keys_unique.
    + now rewrite (proj1 (cleanup_swallows_database_errors w Hd)).
Qed.

Lemma request_hash_unique_witness :
  NoDup (map request_hash (ai_cache Samples.world_mixed)) /\
  NoDup (map request_hash
           (ai_cache (EnhancedCache.get_or_execute Samples.rt EnhancedCache.init
                        (Samples.answering "list_files" Samples.new_answer) [] None
                        (Some "a") false [] Samples.world_mixed).2)).
Proof.
  assert (Hnd : NoDup (map request_hash (ai_cache Samples.world_mixed))).
  { simpl. repeat (apply NoDup_cons; split; [| ]); try apply NoDup_nil_2;
      intros H; repeat (apply elem_of_cons in H as [H | H]; [discriminate H |]);
      now apply elem_of_nil in H. }
  split; [exact Hnd |].
  exact (proj1 (request_hash_stays_unique Samples.rt Samples.world_mixed Hnd)
           EnhancedCache.init (Samples.answering "list_files" Samples.new_answer)
           [] None "a" false []).
Defined.

Lemma written_row_is_found_from (key : string) (V : value) (expiry t : Z)
    (rows : list AICache) (n m : nat) :
  t < expiry ->
  response_data <$>
    (snd <$> DB.first_from m
       (fun r => String.eqb (request_hash r) key && (t <? expires_at r))
       match DB.first_from n (fun r => String.eqb (request_hash r) key) rows with
       | Some (j, row) => <[(j - n)%nat := mkAICache (request_hash row) V expiry]> rows
       | None => (rows ++ [mkAICache key V expiry])%list
       end)
  = Some V.
Proof.
  intros Ht.
  assert (Hlt : (t <? expiry) = true) by now apply Z.ltb_lt.
  revert n m. induction rows as [| r rs IH]; intros n m.
  - simpl. now rewrite String.eqb_refl, Hlt.
  - cbn [DB.first_from].
    destruct (String.eqb (request_hash r) key) eqn:Hk.
    + rewrite Nat.sub_diag. simpl. now rewrite Hk, Hlt.
    + specialize (IH (S n) (S m)).
      destruct (DB.first_from (S n) _ rs) as [[j row] |] eqn:Hf.
      * apply first_from_some in Hf as (Hle & _ & _).
        replace (j - n)%nat with (S (j - S n)) by lia.
        simpl. rewrite Hk. simpl. exact IH.
      * simpl. rewrite Hk. simpl. exact IH.
Qed.

Lemma written_row_is_found (key : string) (V : value) (expiry t : Z)
    (rows : list AICache) :
  t < expiry ->
  response_data <$>
    (snd <$> DB.first_from O
       (fun r => String.eqb (request_hash r) key && (t <? expires_at r))
       (upsert key V expiry rows))
  = Some V.
Proof.
  intros Ht. unfold upsert.
  pose proof (written_row_is_found_from key V expiry t rows O O Ht) as H.
  destruct (DB.first_from O (fun r => String.eqb (request_hash r) key) rows)
    as [[j row] |]; [| exact H].
  now rewrite Nat.sub_0_r in H.
Qed.

Lemma enhanced_miss_writes_row (rt : Runtime) (self : EnhancedCache.EnhancedCache)
    (func : Callable) args ttl key kw w0 w1 V :
  EnhancedCache.get_or_execute rt self func args ttl (Some key) false kw w0
  = (Returned V, w1) ->
  calls w1 <> calls w0 ->
  db_up (env w1) = true ->
  ai_cache w1
  = upsert key V (time_now (env w1) + ttl_or ttl (EnhancedCache.default_ttl self))
      (ai_cache w0).
Proof.
  intros Hret Hcalls Hd. unfold EnhancedCache.get_or_execute in Hret. simpl in Hret.
  unfold bind at 1 in Hret.
  destruct (Redis.get key w0) as [[cached | e] wa] eqn:Hget; [| discriminate].
  apply redis_get_world in Hget as ->.
  destruct (bytes_truthy cached).
  { exfalso. unfold_m. destruct (json_loads rt _); inversion Hret; subst.
    now apply Hcalls. }
  unfold bind at 1 in Hret.
  destruct (EnhancedFacts.db_lookup_frame key w0) as (r & wb & Hdb & _ & _ & Hab & Hcb).
  rewrite Hdb in Hret.
  destruct (option_truthy r).
  { exfalso. unfold bind at 1 in Hret. unfold tell at 1 in Hret.
    unfold bind at 1 in Hret.
    destruct (Redis.set _ _ _ _) as [[u | e] wc] eqn:Hset; [| discriminate].
    apply redis_set_returned in Hset as (_ & _ & ->).
    unfold ret in Hret. inversion Hret; subst. simpl in Hcalls. now apply Hcalls. }
  unfold bind at 1 in Hret. unfold tell at 1 in Hret.
  unfold bind at 1 in Hret.
  match type of Hret with context [EnhancedCache._execute_with_retry rt func args kw ?w2] =>
    destruct (EnhancedFacts.execute_with_retry_frame rt func args kw w2) as (_ & Ha & _);
    destruct (EnhancedCache._execute_with_retry rt func args kw w2) as [[result | e] wd] end;
    [| discriminate].
  simpl in Ha. rewrite Hab in Ha.
  unfold bind at 1 in Hret.
  destruct (EnhancedFacts.cache_result_spec rt self key result ttl wd)
    as [(_ & _ & we & Hcr & Henv & _ & _ & Hrow & _) | (_ & e & Hcr)];
    rewrite Hcr in Hret; [| discriminate].
  unfold ret in Hret. inversion Hret; subst.
  rewrite Henv in Hd. destruct (Hrow Hd) as (Ht & _).
  now rewrite Ht, Henv, Ha.
Qed.

Lemma db_hit_returns (rt : Runtime) (self : EnhancedCache.EnhancedCache)
    (func : Callable) args ttl key kw w v :
  redis_up (env w) = true ->
  Redis.live (redis w) (time_now (env w)) key = None ->
  (EnhancedCache._get_from_db_cache key w).1 = Returned (Some v) ->
  truthy v = true ->
  0 < ttl_or ttl (EnhancedCache.default_ttl self) ->
  (EnhancedCache.get_or_execute rt self func args ttl (Some key) false kw w).1
  = Returned v /\
  calls (EnhancedCache.get_or_execute rt self func args ttl (Some key) false kw w).2
  = calls w.
Proof.
  intros Hup Hlive Hdb Hv Httl.
  destruct (EnhancedFacts.db_lookup_frame key w) as (r' & w' & Hdb' & He1 & Hr1 & _ & Hc1).
  rewrite Hdb' in Hdb. simpl in Hdb. inversion Hdb; subst r'.
  assert (Hcall : EnhancedCache.get_or_execute rt self func args ttl (Some key) false kw w
            = (Returned v,
               set_redis
                 (<[key := (json_dumps rt v,
                            time_now (env w) + ttl_or ttl (EnhancedCache.default_ttl self))]>
                    (redis w))
                 (log DEBUG ("DB cache hit for " +:+ key) w'))).
  { unfold EnhancedCache.get_or_execute. simpl.
    unfold bind at 1. rewrite (redis_get_up _ _ Hup), Hlive. simpl.
    unfold bind at 1. rewrite Hdb'. simpl. rewrite Hv.
    unfold bind at 1. unfold tell at 1. unfold bind at 1.
    rewrite redis_set_ok by (simpl; congruence). simpl.
    unfold ret. rewrite He1, Hr1. reflexivity. }
  rewrite Hcall. split; [reflexivity | exact Hc1].
Qed.

(** X26.  A result cached by enhanced_cache.py outlives the volatile tier.
    After a call of get_or_execute on the key K that awaited its function
    and returned a truthy V with the database up, take any later state
    in which the volatile tier has no live entry for K (flushed,
    restarted, evicted) while the table is as the call left it: every
    get_or_execute on K made there before the time to live has elapsed,
    with both stores up, returns V without awaiting its function. *)
Theorem cached_result_survives_volatile_loss (rt : Runtime)
    (self : EnhancedCache.EnhancedCache) (func func' : Callable)
    (args args' : list value) (ttl ttl' : option Z) (key : string)
    (kw kw' : kwargs) (w0 w1 : World) (V : value)
    (store : gmap string (string * Z)) (e : Env) :
  EnhancedCache.get_or_execute rt self func args ttl (Some key) false kw w0
  = (Returned V, w1) ->
  calls w1 <> calls w0 ->
  db_up (env w1) = true ->
  truthy V = true ->
  redis_up e = true ->
  db_up e = true ->
  time_now e < time_now (env w1) + ttl_or ttl (EnhancedCache.default_ttl self) ->
  Redis.live store (time_now e) key = None ->
  0 < ttl_or ttl' (EnhancedCache.default_ttl self) ->
  (EnhancedCache.get_or_execute rt self func' args' ttl' (Some key) false kw'
     (set_env e (set_redis store w1))).1
  = Returned V /\
  calls (EnhancedCache.get_or_execute rt self func' args' ttl' (Some key) false kw'
           (set_env e (set_redis store w1))).2
  = calls w1.
Proof.
  intros Hret Hcalls Hd HV Hup Hdb Ht Hlive Httl.
  pose proof (enhanced_miss_writes_row rt self func args ttl key kw w0 w1 V
                Hret Hcalls Hd) as Hrows.
  apply (db_hit_returns rt self func' args' ttl' key kw'
           (set_env e (set_redis store w1)) V); try assumption.
  rewrite db_lookup_value. cbn [set_env set_redis env ai_cache].
  rewrite Hdb, Hrows.
  now rewrite (written_row_is_found key V _ (time_now e) (ai_cache w0) Ht).
Qed.

Lemma cached_result_survives_witness :
  (EnhancedCache.get_or_execute Samples.rt EnhancedCache.init
     (Samples.failing "list_files") [] None (Some "a") false []
     (set_env (mkEnv 2000 true true)
        (set_redis ∅
           (EnhancedCache.get_or_execute Samples.rt EnhancedCache.init
              (Samples.answering "list_files" Samples.new_answer) [] None
              (Some "a") false [] Samples.world_mixed).2))).1
  = Returned Samples.new_answer.
Proof.
  assert (Ht : 2000 < 1000 + 3600) by (vm_compute; reflexivity).
  assert (Hpos : 0 < 3600) by (vm_compute; reflexivity).
  refine (proj1 (cached_result_survives_volatile_loss Samples.rt EnhancedCache.init
    (Samples.answering "list_files" Samples.new_answer) (Samples.failing "list_files")
    [] [] None None "a" [] [] Samples.world_mixed _ Samples.new_answer ∅
    (mkEnv 2000 true true) eq_refl _ eq_refl eq_refl eq_refl eq_refl Ht eq_refl Hpos)).
  vm_compute. discriminate.
Defined.

End CacheExtras.
